(** * gadgetrajjo storefront: catalog normalizers, pagination, checkout

    A shallow embedding of the storefront's client logic and the proofs of
    its specified properties.  The embedded functions are

    - [fbqTrack]                       (src/fbpixel.ts),
    - the image normalizers of [fetchProducts] (Home page) and
      [fetchProduct] (product details page),
    - [paginatedProducts] and [totalPages] (Home page),
    - [getFirstImageUrl] and [handleSubmit] (Cart page).

    Conventions.  JavaScript strings are byte strings ([string]); the case
    mapping and the white space set are the ASCII ones.  JavaScript values
    of dynamic type are the inductive [JsValue].  [JSON.parse] belongs to
    the platform and is a parameter of the functions that call it; [None]
    stands for a raised [SyntaxError].  Prices are JavaScript numbers and
    are kept abstract behind the class [JsNumber]. *)

From Stdlib Require Import ZArith QArith Qround Lqa Ascii String Sorted.
From stdpp Require Import base tactics option list strings gmap.

Set Warnings "-register-all".

Local Open Scope string_scope.
Local Open Scope list_scope.
Local Open Scope Z_scope.

(** ** JavaScript strings and values *)

Module Js.

(** [String.prototype.toLowerCase], on ASCII letters. *)
Definition lower_ascii (c : ascii) : ascii :=
  let n := nat_of_ascii c in
  if Nat.leb 65 n && Nat.leb n 90 then ascii_of_nat (n + 32) else c.

Fixpoint toLowerCase (s : string) : string :=
  match s with
  | EmptyString => EmptyString
  | String c rest => String (lower_ascii c) (toLowerCase rest)
  end.

(** [s.endsWith(suffix)]: the last [suffix.length] characters of [s] are
    [suffix]. *)
Definition endsWith (s suffix : string) : bool :=
  let len := String.length s in
  let n := String.length suffix in
  if Nat.leb n len then String.eqb (substring (len - n) n s) suffix
  else false.

(** White space stripped by [trim] and matched by [\s]: TAB, LF, VT, FF,
    CR and SPACE. *)
Definition is_whitespace (c : ascii) : bool :=
  let n := nat_of_ascii c in
  Nat.leb 9 n && Nat.leb n 13 || Nat.eqb n 32.

Fixpoint trimStart (s : string) : string :=
  match s with
  | EmptyString => EmptyString
  | String c rest => if is_whitespace c then trimStart rest else s
  end.

Definition trimEnd (s : string) : string :=
  String.rev (trimStart (String.rev s)).

Definition trim (s : string) : string := trimEnd (trimStart s).

(** A dynamically typed value, as a row of the backend or [JSON.parse]
    delivers it. *)
Inductive JsValue : Type :=
| JUndefined
| JNull
| JBoolean (b : bool)
| JNumber (n : Q)
| JString (s : string)
| JArray (elements : list JsValue)
| JObject (fields : list (string * JsValue)).

(** [ToBoolean]: what [!v], [v && ...] and [if (v)] look at. *)
Definition truthy (v : JsValue) : bool :=
  match v with
  | JUndefined | JNull => false
  | JBoolean b => b
  | JNumber n => negb (Qeq_bool n 0)
  | JString s => negb (String.eqb s "")
  | JArray _ | JObject _ => true
  end.

(** Truthiness of a string: it is not empty. *)
Definition nonempty (s : string) : bool := negb (String.eqb s "").

End Js.

Import Js.

(** ** Cart page: the strict first-image helper *)

Module CartImage.

Definition validImageExts : list string :=
  [".jpg"; ".jpeg"; ".png"; ".gif"; ".webp"; ".bmp"; ".svg"; ".avif"].

(** [isValidImage]: [!url || typeof url !== 'string'] gives [false];
    otherwise some extension ends the lower-cased url. *)
Definition isValidImage (url : JsValue) : bool :=
  match url with
  | JString s =>
      if negb (nonempty s) then false
      else
        let lower := toLowerCase s in
        existsb (fun ext => endsWith lower ext) validImageExts
  | _ => false
  end.

Definition getFirstImageUrl (JSON_parse : string -> option JsValue)
    (imageData : JsValue) : option JsValue :=
  if negb (truthy imageData) then None
  else
    let urls :=
      match imageData with
      | JArray elements => elements
      | JString s =>
          match JSON_parse s with
          | Some (JArray parsed) => parsed
          | Some _ => [imageData]
          | None => [imageData]
          end
      | _ => []
      end in
    let validImages := List.filter isValidImage urls in
    match validImages with
    | first :: _ => Some first
    | [] => None
    end.

End CartImage.

(** ** Catalog normalizer: the image list of a raw product row *)

(** The two fields of a [products] row that the normalizers read.  The
    [images] column arrives with a dynamic type; [image_url] is declared
    [string | null] ([None] is [null] or an absent column). *)
Record RawProduct : Type := {
  raw_images : JsValue;
  raw_image_url : option string;
}.

Module Normalizer.

Definition typeof_string (v : JsValue) : bool :=
  match v with JString _ => true | _ => false end.

(** Truthiness of [img.trim()] after the [typeof] test has passed. *)
Definition trim_truthy (v : JsValue) : bool :=
  match v with JString s => nonempty (trim s) | _ => false end.

(** The filter callback [img => img && typeof img === 'string' &&
    img.trim()]. *)
Definition keepImage (img : JsValue) : bool :=
  truthy img && typeof_string img && trim_truthy img.

(** The callback [(img: string) => img && img.trim()] and the condition
    [s && s.trim()] on a value known to be a string. *)
Definition keepString (s : string) : bool :=
  nonempty s && nonempty (trim s).

(** [!images || images.length === 0] *)
Definition missing_or_empty (images : option (list JsValue)) : bool :=
  match images with
  | None => true
  | Some l => Nat.eqb (length l) 0
  end.

(** The last two steps, which both pages share word for word:
    [if ((!images || images.length === 0) && p.image_url &&
    p.image_url.trim()) images = [p.image_url]], and then
    [images && images.length > 0 ? images : undefined]. *)
Definition finish (images : option (list JsValue))
    (image_url : option string) : option (list JsValue) :=
  let images :=
    match image_url with
    | Some u =>
        if missing_or_empty images && keepString u then Some [JString u]
        else images
    | None => images
    end in
  match images with
  | Some l => if Nat.ltb 0 (length l) then Some l else None
  | None => None
  end.

End Normalizer.

Module Home.

Import Normalizer.

(** The body of the [map] callback of [fetchProducts], as far as
    [images] goes.  [None] is [undefined]. *)
Definition normalizeImages (JSON_parse : string -> option JsValue)
    (p : RawProduct) : option (list JsValue) :=
  let images : option (list JsValue) :=
    match raw_images p with
    | JUndefined | JNull => None
    | JString s =>
        match JSON_parse s with
        | Some (JArray parsed) => Some (List.filter keepImage parsed)
        | Some _ =>
            Some (List.filter (fun img => match img with
                                          | JString t => keepString t
                                          | _ => false
                                          end) [JString s])
        | None => if keepString s then Some [JString s] else None
        end
    | JArray elements => Some (List.filter keepImage elements)
    | _ => None
    end in
  finish images (raw_image_url p).

Definition ITEMS_PER_PAGE : Z := 12.

(** [Array.prototype.slice(start, end)], negative indices included. *)
Definition slice {A : Type} (l : list A) (start end_ : Z) : list A :=
  let len := Z.of_nat (length l) in
  let k := if start <? 0 then Z.max (len + start) 0 else Z.min start len in
  let final := if end_ <? 0 then Z.max (len + end_) 0 else Z.min end_ len in
  take (Z.to_nat (final - k)) (drop (Z.to_nat k) l).

Definition paginatedProducts {A : Type} (sortedProducts : list A)
    (currentPage : Z) : list A :=
  let startIndex := (currentPage - 1) * ITEMS_PER_PAGE in
  let endIndex := startIndex + ITEMS_PER_PAGE in
  slice sortedProducts startIndex endIndex.

(** [Math.ceil(sortedProducts.length / ITEMS_PER_PAGE)], the quotient
    taken in the rationals. *)
Definition totalPages {A : Type} (sortedProducts : list A) : Z :=
  Qceiling (inject_Z (Z.of_nat (length sortedProducts))
            / inject_Z ITEMS_PER_PAGE)%Q.

End Home.

Module ProductDetails.

Import Normalizer.

(** The success branch of [fetchProduct], as far as [images] goes. *)
Definition normalizeImages (JSON_parse : string -> option JsValue)
    (data : RawProduct) : option (list JsValue) :=
  let images : option (list JsValue) :=
    match raw_images data with
    | JUndefined | JNull => None
    | JString s =>
        match JSON_parse s with
        | Some (JArray parsed) => Some (List.filter keepImage parsed)
        | Some _ => if keepString s then Some [JString s] else None
        | None => if keepString s then Some [JString s] else None
        end
    | JArray elements => Some (List.filter keepImage elements)
    | _ => None
    end in
  finish images (raw_image_url data).

End ProductDetails.

(** ** Analytics emitter *)

Module FbPixel.

(** How a call ends: it returns, or it raises the given value. *)
Inductive Completion : Type :=
| Returns
| Raises (thrown : JsValue).

(** The global [window.fbq]: [undefined] until the tracking library has
    loaded, afterwards a function of the command, the event name and
    the property mapping. *)
Record Window : Type := {
  fbq : option (string -> string -> list (string * JsValue) -> Completion);
}.

(** What a call of [fbqTrack] does: the arguments of its [console.warn]
    calls, and how it ends. *)
Record Effect : Type := {
  warnings : list (string * string * list (string * JsValue));
  completion : Completion;
}.

Definition fbqTrack (window : Window) (event : string)
    (data : list (string * JsValue)) : Effect :=
  match fbq window with
  | Some f =>
      {| warnings := []; completion := f "track" event data |}
  | None =>
      {| warnings := [("FB Pixel not loaded yet:", event, data)];
         completion := Returns |}
  end.

End FbPixel.

(** ** Numbers *)

(** JavaScript numbers that carry money.  [handleSubmit] adds and
    multiplies them, compares them with zero and rounds them; the class
    lists exactly these operations, so that what is proved of the checkout
    does not depend on how floating point carries them out. *)
Class JsNumber (num : Type) : Type := {
  num_of_Z : Z -> num;
  num_add : num -> num -> num;
  num_mul : num -> num -> num;
  (** [x <= 0] *)
  num_le0 : num -> bool;
  (** [parseFloat(x.toFixed(2))] *)
  num_toFixed2 : num -> num;
}.

(** Exact rationals are one instance: [toFixed(2)] picks the nearest
    multiple of 1/100, the larger in absolute value when two are as near. *)
Definition Q_toFixed2 (x : Q) : Q :=
  if Qle_bool 0 x
  then Qred (Qmake (Qfloor (x * 100 + (1 # 2))%Q) 100)
  else Qred (- Qmake (Qfloor (- x * 100 + (1 # 2))%Q) 100)%Q.

#[export] Instance Q_JsNumber : JsNumber Q := {|
  num_of_Z := inject_Z;
  num_add x y := Qred (x + y)%Q;
  num_mul x y := Qred (x * y)%Q;
  num_le0 x := Qle_bool x 0%Q;
  num_toFixed2 := Q_toFixed2;
|}.

(** ** Cart store *)

Module CartStore.
Section Store.
Context {num : Type} `{!JsNumber num}.

(** A line of the cart, as the Cart page reads it. *)
Record CartItem : Type := {
  item_id : string;
  item_name : string;
  item_price : num;
  item_quantity : Z;
  item_image_url : JsValue;
}.

(** Modelled from the spec: the cart context (the module behind
    [useCart]) is not among the sources.  [removeItem(productId)]
    removes the line of that product. *)
Definition removeItem (productId : string) (items : list CartItem)
    : list CartItem :=
  List.filter (fun item => negb (String.eqb (item_id item) productId))
              items.

(** Modelled from the spec: the cart context is not among the sources.
    [clearCart()] erases the content of the store. *)
Definition clearCart (items : list CartItem) : list CartItem := [].

(** Modelled from the spec: the cart context is not among the sources.
    The derived [totalPrice] is the sum of [price * quantity] over the
    lines. *)
Definition totalPrice (items : list CartItem) : num :=
  fold_left
    (fun sum item =>
       num_add sum (num_mul (item_price item)
                            (num_of_Z (item_quantity item))))
    items (num_of_Z 0).

End Store.
Arguments CartItem num : clear implicits.
End CartStore.

Import CartStore.

(** ** Cart page: checkout *)

Module Checkout.

(** *** Data *)

Inductive Location : Type := inside_dhaka | outside_dhaka.

Record FormData : Type := {
  form_name : string;
  form_phone : string;
  form_address : string;
  form_location : Location;
}.

(** The error object of the backend client. *)
Record PostgrestError : Type := { message : string }.

(** What the user is told.  One constructor per text of the page; the
    two lists and the backend's own message are the variable parts. *)
Inductive Message : Type :=
| CartEmpty
| InvalidCartItem
| NameRequired
| PhoneRequired
| PhoneInvalid
| AddressRequired
| ProductsUnavailable (names : list string)
| OutOfStock (lines : list (string * Z))
| ProductCheckFailed
| OrderCreateFailed
| OrderIdMissing
| NoValidProducts
| OrderItemsFailed
| OrderFailed
| BackendMessage (text : string)
| OrderPlaced.

Inductive Toast : Type :=
| toast_error (m : Message)
| toast_success (m : Message).

(** [text || fallback] for the message of a backend error. *)
Definition message_or (text : string) (fallback : Message) : Message :=
  if nonempty text then BackendMessage text else fallback.

(** [error?.message || fallback] for a caught error. *)
Definition caught_message_or (e : Message) (fallback : Message) : Message :=
  match e with
  | BackendMessage text => message_or text fallback
  | other => other
  end.

(** The character class [[0-9+\-\s()]]. *)
Definition phone_char (c : ascii) : bool :=
  let n := nat_of_ascii c in
  Nat.leb 48 n && Nat.leb n 57
  || Ascii.eqb c "+" || Ascii.eqb c "-" || is_whitespace c
  || Ascii.eqb c "(" || Ascii.eqb c ")".

(** [/^[0-9+\-\s()]+$/.test(s)] *)
Definition phoneRegex_test (s : string) : bool :=
  nonempty s && forallb phone_char (list_ascii_of_string s).

(** The [{ data, error }] pair a request resolves to. *)
Record Response (A : Type) : Type := {
  data : option A;
  error : option PostgrestError;
}.
Arguments data {A} _.
Arguments error {A} _.

(** How a statement completes: normally, by [return] out of the handler,
    or by [throw]. *)
Inductive Completion (A : Type) : Type :=
| Normal (a : A)
| Return
| Throw (e : Message).
Arguments Normal {A} a.
Arguments Return {A}.
Arguments Throw {A} e.

Section WithNumbers.
Context {num : Type} `{!JsNumber num}.

Record DeliveryCharges : Type := {
  charge_inside_dhaka : num;
  charge_outside_dhaka : num;
}.

Definition defaultDeliveryCharges : DeliveryCharges :=
  {| charge_inside_dhaka := num_of_Z 60;
     charge_outside_dhaka := num_of_Z 120 |}.

(** A row of [products], with the columns the checkout selects. *)
Record ProductRow : Type := {
  product_id : string;
  product_name : string;
  product_stock : Z;
  product_price : num;
}.

(** The object handed to [insert] on [orders]. *)
Record OrderRow : Type := {
  customer_name : string;
  phone : string;
  address : string;
  location_type : Location;
  total_amount : num;
  status : string;
}.

(** The objects handed to [insert] on [order_items]. *)
Record OrderItemRow : Type := {
  order_id : string;
  order_item_product_id : string;
  order_item_quantity : Z;
  order_item_price : num;
}.

(** How the backend answers the requests of one submission; each is
    sent at most once.
    - the select on [products]: any response;
    - the insert on [orders]: the row is stored under a new id, which
      comes back, or it is refused with an error;
    - the insert on [order_items]: stored, or refused with an error;
    - the delete on [orders]: it takes effect or it does not (the
      page does not look at its response). *)
Record Network : Type := {
  products_answer : Response (list ProductRow);
  orders_insert_answer : string + PostgrestError;
  order_items_insert_answer : option PostgrestError;
  orders_delete_applies : bool;
}.

(** The cart store, the two tables written by the checkout, and the
    state of the page. *)
Record World : Type := {
  cart : list (CartItem num);
  orders : list (string * OrderRow);
  order_items : list OrderItemRow;
  loading : bool;
  orderId : option string;
  orderConfirmed : bool;
  toasts : list Toast;
}.

Definition with_cart (f : list (CartItem num) -> list (CartItem num))
    (w : World) : World :=
  {| cart := f (cart w); orders := orders w;
     order_items := order_items w; loading := loading w;
     orderId := orderId w; orderConfirmed := orderConfirmed w;
     toasts := toasts w |}.

Definition with_orders
    (f : list (string * OrderRow) -> list (string * OrderRow))
    (w : World) : World :=
  {| cart := cart w; orders := f (orders w);
     order_items := order_items w; loading := loading w;
     orderId := orderId w; orderConfirmed := orderConfirmed w;
     toasts := toasts w |}.

Definition with_order_items
    (f : list OrderItemRow -> list OrderItemRow) (w : World) : World :=
  {| cart := cart w; orders := orders w;
     order_items := f (order_items w); loading := loading w;
     orderId := orderId w; orderConfirmed := orderConfirmed w;
     toasts := toasts w |}.

Definition with_loading (b : bool) (w : World) : World :=
  {| cart := cart w; orders := orders w;
     order_items := order_items w; loading := b;
     orderId := orderId w; orderConfirmed := orderConfirmed w;
     toasts := toasts w |}.

Definition with_orderId (o : option string) (w : World) : World :=
  {| cart := cart w; orders := orders w;
     order_items := order_items w; loading := loading w;
     orderId := o; orderConfirmed := orderConfirmed w;
     toasts := toasts w |}.

Definition with_orderConfirmed (b : bool) (w : World) : World :=
  {| cart := cart w; orders := orders w;
     order_items := order_items w; loading := loading w;
     orderId := orderId w; orderConfirmed := b;
     toasts := toasts w |}.

Definition with_toast (t : Toast) (w : World) : World :=
  {| cart := cart w; orders := orders w;
     order_items := order_items w; loading := loading w;
     orderId := orderId w; orderConfirmed := orderConfirmed w;
     toasts := toasts w ++ [t] |}.

(** *** Control flow

    A statement runs on the world and ends in a [Completion]. *)
Definition M (A : Type) : Type := World -> Completion A * World.

Definition ret {A : Type} (a : A) : M A := fun w => (Normal a, w).

Definition bind {A B : Type} (m : M A) (k : A -> M B) : M B :=
  fun w =>
    match m w with
    | (Normal a, w') => k a w'
    | (Return, w') => (Return, w')
    | (Throw e, w') => (Throw e, w')
    end.

Definition return_ {A : Type} : M A := fun w => (Return, w).
Definition throw {A : Type} (e : Message) : M A := fun w => (Throw e, w).
Definition modify (f : World -> World) : M unit :=
  fun w => (Normal tt, f w).

(** [try { body } catch (e) { handler } finally { finalizer }]; the
    finalizer runs however the rest completes, and the completion of
    the rest stands when the finalizer completes normally. *)
Definition try_catch_finally (body : M unit)
    (handler : Message -> M unit) (finalizer : M unit) : M unit :=
  fun w =>
    let '(c, w1) :=
      match body w with
      | (Throw e, w') => handler e w'
      | other => other
      end in
    match finalizer w1 with
    | (Normal _, w2) => (c, w2)
    | other => other
    end.

#[global] Instance M_ret : MRet M := @ret.
#[global] Instance M_bind : MBind M :=
  fun A B (k : A -> M B) (m : M A) => bind m k.

(** *** Requests to the backend *)

Definition select_products (net : Network) (ids : list string)
    : M (Response (list ProductRow)) :=
  ret (products_answer net).

Definition insert_order (net : Network) (row : OrderRow)
    : M (Response string) :=
  fun w =>
    match orders_insert_answer net with
    | inl id =>
        (Normal {| data := Some id; error := None |},
         with_orders (fun rows => rows ++ [(id, row)]) w)
    | inr e => (Normal {| data := None; error := Some e |}, w)
    end.

Definition insert_order_items (net : Network) (rows : list OrderItemRow)
    : M (option PostgrestError) :=
  fun w =>
    match order_items_insert_answer net with
    | None => (Normal None, with_order_items (fun old => old ++ rows) w)
    | Some e => (Normal (Some e), w)
    end.

Definition delete_order (net : Network) (id : string) : M unit :=
  modify (fun w =>
    if orders_delete_applies net
    then with_orders
           (List.filter (fun row => negb (String.eqb (fst row) id))) w
    else w).

(** *** The page's own effects *)

Definition toast (t : Toast) : M unit := modify (with_toast t).
Definition setLoading (b : bool) : M unit := modify (with_loading b).
Definition setOrderId (id : string) : M unit :=
  modify (with_orderId (Some id)).
Definition setOrderConfirmed (b : bool) : M unit :=
  modify (with_orderConfirmed b).
Definition cart_removeItem (id : string) : M unit :=
  modify (with_cart (removeItem id)).
Definition cart_clearCart : M unit := modify (with_cart clearCart).

Fixpoint forEach {A : Type} (l : list A) (f : A -> M unit) : M unit :=
  match l with
  | [] => ret tt
  | x :: rest => f x ;; forEach rest f
  end.

(** *** The values [handleSubmit] computes on its way *)

Definition deliveryCharge (formData : FormData)
    (deliveryCharges : DeliveryCharges) : num :=
  match form_location formData with
  | inside_dhaka => charge_inside_dhaka deliveryCharges
  | outside_dhaka => charge_outside_dhaka deliveryCharges
  end.

Definition finalTotal (items : list (CartItem num)) (formData : FormData)
    (deliveryCharges : DeliveryCharges) : num :=
  num_add (totalPrice items) (deliveryCharge formData deliveryCharges).

(** [!item.id || !item.name || item.price <= 0 || item.quantity <= 0] *)
Definition invalidItem (item : CartItem num) : bool :=
  negb (nonempty (item_id item)) || negb (nonempty (item_name item))
  || num_le0 (item_price item) || (item_quantity item <=? 0).

(** [!s || !s.trim()] *)
Definition blank (s : string) : bool :=
  negb (nonempty s) || negb (nonempty (trim s)).

(** [new Set(existingProducts?.map(p => p.id) || [])] *)
Definition existingIds (existingProducts : option (list ProductRow))
    : gset string :=
  list_to_set
    (match existingProducts with
     | Some rows => List.map product_id rows
     | None => []
     end).

Definition missingItems (items : list (CartItem num))
    (existingProducts : option (list ProductRow))
    : list (CartItem num) :=
  List.filter
    (fun item =>
       negb (bool_decide (item_id item ∈ existingIds existingProducts)))
    items.

(** [existingProducts?.find(p => p.id === id)] *)
Definition findProduct (existingProducts : option (list ProductRow))
    (id : string) : option ProductRow :=
  match existingProducts with
  | Some rows => List.find (fun p => String.eqb (product_id p) id) rows
  | None => None
  end.

(** The loop that fills [outOfStockItems]; an entry stands for the
    text made of the product's name and its stock. *)
Definition outOfStockItems (items : list (CartItem num))
    (existingProducts : option (list ProductRow)) : list (string * Z) :=
  flat_map
    (fun item =>
       match findProduct existingProducts (item_id item) with
       | Some product =>
           if product_stock product <? item_quantity item
           then [(product_name product, product_stock product)]
           else []
       | None => []
       end)
    items.

Definition newOrder (items : list (CartItem num)) (formData : FormData)
    (deliveryCharges : DeliveryCharges) : OrderRow :=
  {| customer_name := trim (form_name formData);
     phone := trim (form_phone formData);
     address := trim (form_address formData);
     location_type := form_location formData;
     total_amount :=
       num_toFixed2 (finalTotal items formData deliveryCharges);
     status := "pending" |}.

(** [existingProducts?.some(p => p.id === id)] *)
Definition someProduct (existingProducts : option (list ProductRow))
    (id : string) : bool :=
  match existingProducts with
  | Some rows => existsb (fun p => String.eqb (product_id p) id) rows
  | None => false
  end.

Definition orderItems (orderId : string) (items : list (CartItem num))
    (existingProducts : option (list ProductRow)) : list OrderItemRow :=
  List.map
    (fun item =>
       {| order_id := orderId;
          order_item_product_id := item_id item;
          order_item_quantity := item_quantity item;
          order_item_price := num_toFixed2 (item_price item) |})
    (List.filter
       (fun item => someProduct existingProducts (item_id item))
       items).

(** *** [handleSubmit] *)

(** The [try] block. *)
Definition submitOrder (net : Network) (formData : FormData)
    (deliveryCharges : DeliveryCharges) (items : list (CartItem num))
    : M unit :=
  let productIds := List.map item_id items in
  r ← select_products net productIds;
  let existingProducts := data r in
  (match error r with
   | Some productsError =>
       throw (message_or (message productsError) ProductCheckFailed)
   | None => ret tt
   end) ;;
  (if match existingProducts with
      | None => true
      | Some rows => negb (Nat.eqb (length rows) (length items))
      end
   then
     let missing := missingItems items existingProducts in
     if Nat.ltb 0 (length missing)
     then
       toast (toast_error
                (ProductsUnavailable (List.map item_name missing))) ;;
       forEach missing (fun item => cart_removeItem (item_id item)) ;;
       setLoading false ;;
       return_
     else ret tt
   else ret tt) ;;
  let outOfStock := outOfStockItems items existingProducts in
  (if Nat.ltb 0 (length outOfStock)
   then
     toast (toast_error (OutOfStock outOfStock)) ;;
     setLoading false ;;
     return_
   else ret tt) ;;
  r ← insert_order net (newOrder items formData deliveryCharges);
  (match error r with
   | Some orderError =>
       throw (message_or (message orderError) OrderCreateFailed)
   | None => ret tt
   end) ;;
  match data r with
  | None => throw OrderIdMissing
  | Some id =>
      if negb (nonempty id) then throw OrderIdMissing
      else
        let rows := orderItems id items existingProducts in
        (if Nat.eqb (length rows) 0
         then delete_order net id ;; throw NoValidProducts
         else ret tt) ;;
        itemsError ← insert_order_items net rows;
        (match itemsError with
         | Some e =>
             delete_order net id ;;
             throw (message_or (message e) OrderItemsFailed)
         | None => ret tt
         end) ;;
        setOrderId id ;;
        setOrderConfirmed true ;;
        cart_clearCart ;;
        toast (toast_success OrderPlaced)
  end.

(** The handler; [items] is the content of the cart store as the page
    last rendered it. *)
Definition handleSubmit (net : Network) (formData : FormData)
    (deliveryCharges : DeliveryCharges) (items : list (CartItem num))
    : M unit :=
  if Nat.eqb (length items) 0
  then toast (toast_error CartEmpty) ;; return_
  else if existsb invalidItem items
  then toast (toast_error InvalidCartItem) ;; return_
  else if blank (form_name formData)
  then toast (toast_error NameRequired) ;; return_
  else if blank (form_phone formData)
  then toast (toast_error PhoneRequired) ;; return_
  else if negb (phoneRegex_test (trim (form_phone formData)))
  then toast (toast_error PhoneInvalid) ;; return_
  else if blank (form_address formData)
  then toast (toast_error AddressRequired) ;; return_
  else
    setLoading true ;;
    try_catch_finally
      (submitOrder net formData deliveryCharges items)
      (fun e => toast (toast_error (caught_message_or e OrderFailed)))
      (setLoading false).

(** One submission: the handler runs on the cart as it stands. *)
Definition submit (net : Network) (formData : FormData)
    (deliveryCharges : DeliveryCharges) (w : World) : World :=
  snd (handleSubmit net formData deliveryCharges (cart w) w).

End WithNumbers.

Arguments DeliveryCharges num : clear implicits.
Arguments ProductRow num : clear implicits.
Arguments OrderRow num : clear implicits.
Arguments OrderItemRow num : clear implicits.
Arguments Network num : clear implicits.
Arguments World num : clear implicits.
Arguments M num A : clear implicits.

End Checkout.

Import CartImage Checkout.

(** ** Cart page: what the page renders *)

Module CartPage.

(** The two views of the component.  The view of a cart with lines ends
    with the confirmation [Dialog]: closed, or open on the text of
    [{orderId}] ([None] is [null], which prints nothing). *)
Inductive View : Type :=
| EmptyCartView
| CartView (dialog : option (option string)).

Section WithNumbers.
Context {num : Type} `{!JsNumber num}.

(** The body of the component after its handlers:
    [if (items.length === 0) return <the empty cart>] comes first, and
    only the second [return] holds
    [<Dialog open={orderConfirmed} ...> ... {orderId} ...]. *)
Definition render (w : World num) : View :=
  if Nat.eqb (length (cart w)) 0 then EmptyCartView
  else CartView (if orderConfirmed w then Some (orderId w) else None).

(** The order id that stands on the page. *)
Definition shownOrderId (w : World num) : option string :=
  match render w with
  | CartView (Some printed) => printed
  | _ => None
  end.

End WithNumbers.
End CartPage.

(** ** Home page: search and sort *)

Module Catalog.

(** [s.includes(sub)]: [sub] starts at some position of [s]. *)
Fixpoint includes (s sub : string) : bool :=
  String.prefix sub s
  || match s with
     | EmptyString => false
     | String _ rest => includes rest sub
     end.

(** A product as the Home page holds it after [fetchProducts]; the price
    is the exact value of the number. *)
Record Product : Type := {
  p_id : string;
  p_name : string;
  p_description : option string;
  p_price : Q;
  p_image_url : option string;
  p_images : option (list JsValue);
  p_stock : Z;
  p_priority : option Z;
  p_created_at : option string;
}.

(** The state of the Home page that searching, sorting and paging use. *)
Record HomeState : Type := {
  products : list Product;
  filteredProducts : list Product;
  currentPage : Z;
  sortBy : string;
}.

(** The filter callback of [handleSearch]:
    [p.name.toLowerCase().includes(query.toLowerCase()) ||
     p.description?.toLowerCase().includes(query.toLowerCase())]. *)
Definition matchesQuery (query : string) (p : Product) : bool :=
  includes (toLowerCase (p_name p)) (toLowerCase query)
  || match p_description p with
     | Some description =>
         includes (toLowerCase description) (toLowerCase query)
     | None => false
     end.

(** [handleSearch]: the pixel event first; when that call returns, the
    page goes back to 1 and the filtered list is set, to all products for
    a blank query and to the matching ones otherwise.  The result is how
    the pixel call went and the state after the handler. *)
Definition handleSearch (window : FbPixel.Window) (query : string)
    (st : HomeState) : FbPixel.Effect * HomeState :=
  let tracked :=
    FbPixel.fbqTrack window "Search" [("search_string", JString query)] in
  match FbPixel.completion tracked with
  | FbPixel.Raises _ => (tracked, st)
  | FbPixel.Returns =>
      (tracked,
       {| products := products st;
          filteredProducts :=
            if negb (nonempty (trim query)) then products st
            else List.filter (matchesQuery query) (products st);
          currentPage := 1;
          sortBy := sortBy st |})
  end.

(** [Array.prototype.sort(compareFn)] for a consistent comparator: the
    standard fixes the result as the stable sorted permutation, which
    insertion from the right computes.  An element goes before the first
    one that does not have to precede it. *)
Fixpoint insertSorted {A : Type} (compareFn : A -> A -> Q) (x : A)
    (sorted : list A) : list A :=
  match sorted with
  | [] => [x]
  | y :: rest =>
      if Qle_bool (compareFn x y) 0 then x :: sorted
      else y :: insertSorted compareFn x rest
  end.

Definition Array_sort {A : Type} (compareFn : A -> A -> Q) (l : list A)
    : list A :=
  fold_right (insertSorted compareFn) [] l.

Section Comparators.

(** [new Date(text).getTime()] and [a.localeCompare(b)] belong to the
    platform. *)
Variable Date_getTime : string -> Z.
Variable localeCompare : string -> string -> Z.

(** [new Date(p.created_at || 0).getTime()] *)
Definition createdTime (p : Product) : Z :=
  match p_created_at p with
  | Some text => if nonempty text then Date_getTime text else 0
  | None => 0
  end.

(** [p.priority ?? 999] *)
Definition priorityOf (p : Product) : Z :=
  match p_priority p with
  | Some n => n
  | None => 999
  end.

Definition compareByPriority (a b : Product) : Q :=
  let priorityA := priorityOf a in
  let priorityB := priorityOf b in
  if negb (priorityA =? priorityB) then inject_Z (priorityA - priorityB)
  else inject_Z (createdTime b - createdTime a).

(** The [useMemo] of [sortedProducts]: a copy of the filtered list,
    sorted by the comparator of the chosen key, or left as it is for any
    other key. *)
Definition sortedProducts (filteredProducts : list Product)
    (sortBy : string) : list Product :=
  let sorted := filteredProducts in
  if String.eqb sortBy "priority" then Array_sort compareByPriority sorted
  else if String.eqb sortBy "price-low"
  then Array_sort (fun a b => p_price a - p_price b)%Q sorted
  else if String.eqb sortBy "price-high"
  then Array_sort (fun a b => p_price b - p_price a)%Q sorted
  else if String.eqb sortBy "name-asc"
  then Array_sort (fun a b => inject_Z (localeCompare (p_name a) (p_name b)))
         sorted
  else if String.eqb sortBy "name-desc"
  then Array_sort (fun a b => inject_Z (localeCompare (p_name b) (p_name a)))
         sorted
  else if String.eqb sortBy "newest"
  then Array_sort (fun a b => inject_Z (createdTime b - createdTime a)) sorted
  else if String.eqb sortBy "oldest"
  then Array_sort (fun a b => inject_Z (createdTime a - createdTime b)) sorted
  else sorted.

End Comparators.

(** The fallback branch of [fetchProducts], as far as [images] goes:
    [p.image_url ? [p.image_url] : undefined]. *)
Definition fallbackImages (p : RawProduct) : option (list JsValue) :=
  match raw_image_url p with
  | Some u => if nonempty u then Some [JString u] else None
  | None => None
  end.

End Catalog.

(** ** Product page: gallery and quantity *)

Module ProductPage.

Import Normalizer.

(** The [useMemo] of [allImages]: the entries of [product.images] that
    are non-blank strings when the list is there and not empty, else the
    [image_url] alone when it is not blank, else nothing. *)
Definition allImages (images : option (list JsValue))
    (image_url : option string) : list JsValue :=
  match images with
  | Some (first :: rest) => List.filter keepImage (first :: rest)
  | _ =>
      match image_url with
      | Some u => if keepString u then [JString u] else []
      | None => []
      end
  end.

(** The slide after the current one: [(prev + 1) % allImages.length]. *)
Definition nextImage (length prev : Z) : Z := Z.rem (prev + 1) length.

(** The slide before: [(prev - 1 + allImages.length) %
    allImages.length]. *)
Definition previousImage (length prev : Z) : Z :=
  Z.rem (prev - 1 + length) length.

(** The step of the timer: [allImages.length === 0 ? 0 : (prev + 1) %
    allImages.length]. *)
Definition autoAdvance (length prev : Z) : Z :=
  if length =? 0 then 0 else Z.rem (prev + 1) length.

(** The clicks on the gallery. *)
Inductive GalleryClick : Type :=
| ClickNext
| ClickPrevious
| ClickThumbnail (index : nat)
| TimerTick.

(** The index of the slide after a click; a thumbnail sets its own
    index. *)
Definition galleryStep (length : Z) (current : Z) (click : GalleryClick)
    : Z :=
  match click with
  | ClickNext => nextImage length current
  | ClickPrevious => previousImage length current
  | ClickThumbnail index => Z.of_nat index
  | TimerTick => autoAdvance length current
  end.

(** The two buttons of the quantity selector:
    [setQuantity(Math.max(1, quantity - 1))] and
    [setQuantity(Math.min(stock, quantity + 1))]. *)
Inductive QuantityClick : Type := ClickMinus | ClickPlus.

Definition quantityStep (stock : Z) (quantity : Z) (click : QuantityClick)
    : Z :=
  match click with
  | ClickMinus => Z.max 1 (quantity - 1)
  | ClickPlus => Z.min stock (quantity + 1)
  end.

(** How the gallery tells a video from an image:
    [url.includes('video') || url.endsWith('.mp4') ||
     url.endsWith('.webm')]. *)
Definition isVideo (url : string) : bool :=
  Catalog.includes url "video" || endsWith url ".mp4"
  || endsWith url ".webm".

End ProductPage.

(** ** Cart page: delivery charges *)

Module Delivery.
Section WithNumbers.
Context {num : Type} `{!JsNumber num}.

(** A row of [delivery_charges]. *)
Record ChargeRow : Type := {
  charge_location_type : string;
  charge_value : JsValue;
}.

(** The body of [data.forEach]: a row of one of the two locations
    overwrites that charge, any other row changes nothing. *)
Definition applyChargeRow (parseFloat : JsValue -> num)
    (charges : DeliveryCharges num) (item : ChargeRow)
    : DeliveryCharges num :=
  if String.eqb (charge_location_type item) "inside_dhaka"
  then {| charge_inside_dhaka := parseFloat (charge_value item);
          charge_outside_dhaka := charge_outside_dhaka charges |}
  else if String.eqb (charge_location_type item) "outside_dhaka"
  then {| charge_inside_dhaka := charge_inside_dhaka charges;
          charge_outside_dhaka := parseFloat (charge_value item) |}
  else charges.

(** [fetchDeliveryCharges]: the state of the charges after the response
    to the select on [delivery_charges].  An error, or no row, leaves the
    state; rows are applied in turn to the built-in defaults.
    [parseFloat] belongs to the platform. *)
Definition fetchDeliveryCharges (parseFloat : JsValue -> num)
    (response : Response (list ChargeRow))
    (deliveryCharges : DeliveryCharges num) : DeliveryCharges num :=
  match error response with
  | Some _ => deliveryCharges
  | None =>
      match data response with
      | Some (first :: rest) =>
          fold_left (applyChargeRow parseFloat) (first :: rest)
            {| charge_inside_dhaka := num_of_Z 60;
               charge_outside_dhaka := num_of_Z 120 |}
      | _ => deliveryCharges
      end
  end.

End WithNumbers.
Arguments ChargeRow : clear implicits.
End Delivery.

(** ** The vocabulary of the specification *)

Module Spec.

(** The list a raw image value stands for: a string is parsed as JSON
    and stands for the array it yields, or for itself alone when the
    parse yields something else or fails; an array stands for itself;
    anything else stands for nothing. *)
Definition entries (JSON_parse : string -> option JsValue)
    (v : JsValue) : list JsValue :=
  match v with
  | JString s =>
      match JSON_parse s with
      | Some (JArray parsed) => parsed
      | _ => [JString s]
      end
  | JArray elements => elements
  | _ => []
  end.

(** A string entry that is neither empty nor blank. *)
Definition nonblank_string (v : JsValue) : bool :=
  match v with
  | JString s => nonempty s && nonempty (trim s)
  | _ => false
  end.

(** The media list of a raw product: the non-blank string entries of
    [images] in their order, or else the legacy [image_url] alone when
    [usable] accepts it, or else nothing. *)
Definition media (usable : string -> bool)
    (JSON_parse : string -> option JsValue) (p : RawProduct)
    : option (list JsValue) :=
  match List.filter nonblank_string (entries JSON_parse (raw_images p)) with
  | [] =>
      match raw_image_url p with
      | Some u => if usable u then Some [JString u] else None
      | None => None
      end
  | kept => Some kept
  end.

(** The fallback as the specification words it: [image_url] present and
    not empty. *)
Definition media_nonempty_fallback := media nonempty.

(** The fallback of the code: [image_url] present and not blank. *)
Definition media_nonblank_fallback :=
  media (fun u => nonempty u && nonempty (trim u)).

(** The lower-cased url ends with an extension of the allow-list. *)
Definition has_image_extension (url : string) : Prop :=
  ∃ ext, In ext validImageExts ∧ endsWith (toLowerCase url) ext = true.

(** An entry the strict helper may return. *)
Definition qualifies (v : JsValue) : Prop :=
  ∃ url, v = JString url ∧ has_image_extension url.

(** The item at a position counted from 0, none at a negative one. *)
Definition item_at {A : Type} (l : list A) (position : Z) : option A :=
  if position <? 0 then None else l !! Z.to_nat position.

End Spec.

Import Spec.

(** *** Checkout *)

Module CheckoutSpec.
Section WithNumbers.
Context {num : Type} `{!JsNumber num}.

(** A line with its identity fields and a positive price and
    quantity. *)
Definition line_ok (item : CartItem num) : bool :=
  nonempty (item_id item) && nonempty (item_name item)
  && negb (num_le0 (item_price item)) && (0 <? item_quantity item).

(** The cart is not empty and every line is in order. *)
Definition cart_valid (items : list (CartItem num)) : bool :=
  match items with
  | [] => false
  | _ => forallb line_ok items
  end.

(** Name, phone and address are not blank, and the trimmed phone is
    made of digits, [+], [-], white space and parentheses. *)
Definition contact_valid (formData : FormData) : bool :=
  negb (blank (form_name formData))
  && negb (blank (form_phone formData))
  && phoneRegex_test (trim (form_phone formData))
  && negb (blank (form_address formData)).

(** The product of a line is among the fetched rows. *)
Definition fetched (rows : list (ProductRow num)) (item : CartItem num)
    : bool :=
  bool_decide (item_id item ∈ List.map product_id rows).

(** The live fetch holds a row for the product of every line. *)
Definition every_id_fetched (items : list (CartItem num))
    (rows : list (ProductRow num)) : bool :=
  forallb (fetched rows) items.

(** The lines whose product the live fetch does not hold. *)
Definition missing_lines (rows : list (ProductRow num))
    (items : list (CartItem num)) : list (CartItem num) :=
  List.filter (fun item => negb (fetched rows item)) items.

(** The fetched row of a line's product. *)
Definition live_row (rows : list (ProductRow num)) (item : CartItem num)
    : option (ProductRow num) :=
  List.find (fun row => String.eqb (product_id row) (item_id item)) rows.

(** The live stock of a line is strictly less than its quantity. *)
Definition insufficient (rows : list (ProductRow num))
    (item : CartItem num) : bool :=
  match live_row rows item with
  | Some row => product_stock row <? item_quantity item
  | None => false
  end.

(** Product name and available stock of the insufficient lines, in
    the order of the cart. *)
Definition insufficient_lines (rows : list (ProductRow num))
    (items : list (CartItem num)) : list (string * Z) :=
  omap
    (fun item =>
       match live_row rows item with
       | Some row => Some (product_name row, product_stock row)
       | None => None
       end)
    (List.filter (insufficient rows) items).

(** The submission gets as far as the insert of the order: the cart
    and the contact data are valid, the fetch holds as many rows as
    the cart has lines or a row for every line, and no line is
    insufficient. *)
Definition reaches_insert (formData : FormData)
    (items : list (CartItem num)) (rows : list (ProductRow num)) : bool :=
  cart_valid items && contact_valid formData
  && (Nat.eqb (length rows) (length items)
      || every_id_fetched items rows)
  && negb (existsb (insufficient rows) items).

(** The submission passes every validation step: the cart and the
    contact data are valid, every line has its row in the fetch, and
    no line is insufficient. *)
Definition passes_validation (formData : FormData)
    (items : list (CartItem num)) (rows : list (ProductRow num)) : bool :=
  cart_valid items && contact_valid formData
  && every_id_fetched items rows
  && negb (existsb (insufficient rows) items).

(** The rows are an answer to the select on the primary key
    restricted to the ids of the cart: no id twice, and no id from
    outside the cart. *)
Definition answers_the_cart (rows : list (ProductRow num))
    (items : list (CartItem num)) : bool :=
  bool_decide (NoDup (List.map product_id rows))
  && forallb
       (fun row =>
          bool_decide (product_id row ∈ List.map item_id items))
       rows.

(** The store after [removeItem] for each of the given lines in
    turn. *)
Definition remove_all (missing items : list (CartItem num))
    : list (CartItem num) :=
  fold_left (fun store item => removeItem (item_id item) store)
            missing items.

(** The order item of a cart line under the given order. *)
Definition order_item_of (id : string) (item : CartItem num)
    : OrderItemRow num :=
  {| order_id := id;
     order_item_product_id := item_id item;
     order_item_quantity := item_quantity item;
     order_item_price := num_toFixed2 (item_price item) |}.

(** The order row of a submission: the trimmed contact data, the
    location, the rounded sum of the line subtotals and of the
    delivery charge of the location, and the status "pending". *)
Definition order_of (items : list (CartItem num)) (formData : FormData)
    (deliveryCharges : DeliveryCharges num) : OrderRow num :=
  {| customer_name := trim (form_name formData);
     phone := trim (form_phone formData);
     address := trim (form_address formData);
     location_type := form_location formData;
     total_amount :=
       num_toFixed2
         (num_add (totalPrice items)
            (match form_location formData with
             | inside_dhaka => charge_inside_dhaka deliveryCharges
             | outside_dhaka => charge_outside_dhaka deliveryCharges
             end));
     status := "pending" |}.

End WithNumbers.
End CheckoutSpec.

Import CheckoutSpec.

(** *** Delivery charges *)

Module DeliverySpec.
Section WithNumbers.
Context {num : Type} `{!JsNumber num}.

(** The charge of a location after the rows of [delivery_charges]: the
    parsed charge of the last row of the location, or else the given
    one. *)
Definition last_charge (parseFloat : JsValue -> num) (location : string)
    (rows : list Delivery.ChargeRow) (otherwise : num) : num :=
  match
    last (List.filter
            (fun row =>
               String.eqb (Delivery.charge_location_type row) location)
            rows)
  with
  | Some row => parseFloat (Delivery.charge_value row)
  | None => otherwise
  end.

End WithNumbers.
End DeliverySpec.

Import DeliverySpec.

(** ** Proof automation for the handler *)

(** Unfolds the statements of the handler down to functions of the
    world. *)
Ltac unfold_steps :=
  unfold submit, try_catch_finally, submitOrder, select_products,
    insert_order, insert_order_items, delete_order, toast, setLoading,
    setOrderId, setOrderConfirmed, cart_clearCart, modify, throw, return_,
    mbind, M_bind, bind, ret.

(** Closes a goal on the toasts of a finished run: the toasts are the old
    ones and one more, which is not the one excluded. *)
Ltac new_toast_differs Hold :=
  cbn; unfold caught_message_or, message_or;
  repeat match goal with
         | |- context [nonempty ?text] => destruct (nonempty text)
         end;
  cbn; rewrite in_app_iff; cbn;
  (intros [? | [? | []]]; [apply Hold; assumption | discriminate]).

(** ** Sample data *)

Module Samples.

Definition quote : string := String (ascii_of_nat 34) EmptyString.

(** The JSON text of the array of "clip.mp4" and "photo.PNG". *)
Definition gallery_json : string :=
  String.concat ""
    ["["; quote; "clip.mp4"; quote; ","; quote; "photo.PNG"; quote; "]"].

(** A stand-in for [JSON.parse] that knows [gallery_json] and raises on
    every other text. *)
Definition parse_gallery (s : string) : option JsValue :=
  if String.eqb s gallery_json
  then Some (JArray [JString "clip.mp4"; JString "photo.PNG"])
  else None.

(** A product with no [images] and a blank [image_url]. *)
Definition blank_url_product : RawProduct :=
  {| raw_images := JNull; raw_image_url := Some " " |}.

(** A tracking function whose call raises. *)
Definition failing_fbq (command event : string)
    (data : list (string * JsValue)) : FbPixel.Completion :=
  FbPixel.Raises (JString "network error").

Definition loaded_window : FbPixel.Window :=
  {| FbPixel.fbq := Some failing_fbq |}.

(** The cart of the scenarios: 3 of A and 3 of B. *)
Definition line_A : CartItem Q :=
  {| item_id := "a"; item_name := "A"; item_price := (21 # 2)%Q;
     item_quantity := 3; item_image_url := JNull |}.
Definition line_B : CartItem Q :=
  {| item_id := "b"; item_name := "B"; item_price := (19999 # 1000)%Q;
     item_quantity := 3; item_image_url := JString "b.png" |}.

Definition row_A : ProductRow Q :=
  {| product_id := "a"; product_name := "Alpha"; product_stock := 5;
     product_price := 11%Q |}.
(** B with 2 in stock, and B with 7 in stock. *)
Definition row_B_short : ProductRow Q :=
  {| product_id := "b"; product_name := "Beta"; product_stock := 2;
     product_price := 25%Q |}.
Definition row_B : ProductRow Q :=
  {| product_id := "b"; product_name := "Beta"; product_stock := 7;
     product_price := 25%Q |}.

Definition row_C : ProductRow Q :=
  {| product_id := "c"; product_name := "Gamma"; product_stock := 9;
     product_price := 5%Q |}.

(** Rows of a product that is not in the cart, as many as the cart has
    lines: no select restricted to the ids of the cart answers so. *)
Definition rows_foreign : list (ProductRow Q) := [row_C; row_C].

Definition rows_A_only : list (ProductRow Q) := [row_A].
Definition rows_short : list (ProductRow Q) := [row_A; row_B_short].
Definition rows_ok : list (ProductRow Q) := [row_A; row_B].

Definition form : FormData :=
  {| form_name := " Rahim "; form_phone := "+880 (17) 00-11";
     form_address := "12 Lake Road"; form_location := outside_dhaka |}.

Definition world : World Q :=
  {| cart := [line_A; line_B]; orders := []; order_items := [];
     loading := false; orderId := None; orderConfirmed := false;
     toasts := [] |}.

Definition answer (rows : list (ProductRow Q))
    : Response (list (ProductRow Q)) :=
  {| data := Some rows; error := None |}.

(** Every request succeeds. *)
Definition net_ok (rows : list (ProductRow Q)) : Network Q :=
  {| products_answer := answer rows;
     orders_insert_answer := inl "order-1";
     order_items_insert_answer := None;
     orders_delete_applies := true |}.

(** The insert of the order items is refused; the delete of the order
    takes effect or not. *)
Definition net_items_refused (delete_applies : bool) : Network Q :=
  {| products_answer := answer rows_ok;
     orders_insert_answer := inl "order-1";
     order_items_insert_answer := Some {| message := "timeout" |};
     orders_delete_applies := delete_applies |}.

End Samples.

(** Data for the scenarios of the other pages and of the failing
    requests. *)
Module Scenarios.

(** A tracking function whose calls return. *)
Definition quiet_fbq (command event : string)
    (data : list (string * JsValue)) : FbPixel.Completion :=
  FbPixel.Returns.

Definition quiet_window : FbPixel.Window :=
  {| FbPixel.fbq := Some quiet_fbq |}.

Definition phone_case : Catalog.Product :=
  {| Catalog.p_id := "p1"; Catalog.p_name := "Phone Case";
     Catalog.p_description := Some "Slim cover";
     Catalog.p_price := 250%Q; Catalog.p_image_url := None;
     Catalog.p_images := None; Catalog.p_stock := 4;
     Catalog.p_priority := Some 2;
     Catalog.p_created_at := Some "2024-01-05" |}.

Definition charger : Catalog.Product :=
  {| Catalog.p_id := "p2"; Catalog.p_name := "USB Charger";
     Catalog.p_description := None;
     Catalog.p_price := 450%Q; Catalog.p_image_url := None;
     Catalog.p_images := None; Catalog.p_stock := 9;
     Catalog.p_priority := None; Catalog.p_created_at := None |}.

(** The Home page on page 3 of an earlier search. *)
Definition home : Catalog.HomeState :=
  {| Catalog.products := [phone_case; charger];
     Catalog.filteredProducts := [charger];
     Catalog.currentPage := 3;
     Catalog.sortBy := "price-low" |}.

(** A phone number with letters. *)
Definition form_bad_phone : FormData :=
  {| form_name := "Rahim"; form_phone := "call me";
     form_address := "12 Lake Road"; form_location := inside_dhaka |}.

(** The select on the products fails, with an error without a message. *)
Definition net_fetch_error : Network Q :=
  {| products_answer :=
       {| data := None; error := Some {| message := "" |} |};
     orders_insert_answer := inl "order-1";
     order_items_insert_answer := None;
     orders_delete_applies := true |}.

(** The insert of the order is refused. *)
Definition net_order_refused : Network Q :=
  {| products_answer := Samples.answer Samples.rows_ok;
     orders_insert_answer := inr {| message := "permission denied" |};
     order_items_insert_answer := None;
     orders_delete_applies := true |}.

(** The order item of the line of A under the order "order-1". *)
Definition order_item_A : OrderItemRow Q :=
  {| order_id := "order-1"; order_item_product_id := "a";
     order_item_quantity := 3; order_item_price := (21 # 2)%Q |}.

(** Rows of [delivery_charges]: two for inside Dhaka, one for a location
    the page does not know. *)
Definition charge_inside_70 : Delivery.ChargeRow :=
  {| Delivery.charge_location_type := "inside_dhaka";
     Delivery.charge_value := JNumber 70 |}.
Definition charge_sylhet_90 : Delivery.ChargeRow :=
  {| Delivery.charge_location_type := "sylhet";
     Delivery.charge_value := JNumber 90 |}.
Definition charge_inside_80 : Delivery.ChargeRow :=
  {| Delivery.charge_location_type := "inside_dhaka";
     Delivery.charge_value := JNumber 80 |}.

Definition charges_answer : Response (list Delivery.ChargeRow) :=
  {| data := Some [charge_inside_70; charge_sylhet_90; charge_inside_80];
     error := None |}.

(** A stand-in for [parseFloat] that knows the numbers. *)
Definition parse_number (v : JsValue) : Q :=
  match v with
  | JNumber n => n
  | _ => 0%Q
  end.

End Scenarios.

(** ** Strict first-image helper *)

Section FirstImage.

Lemma endsWith_empty ext :
  In ext validImageExts → endsWith "" ext = false.
Proof.
  unfold validImageExts. simpl.
  intros H. repeat (destruct H as [<- | H]; [reflexivity |]). destruct H.
Qed.

Lemma isValidImage_qualifies v : isValidImage v = true ↔ qualifies v.
Proof.
  unfold qualifies, has_image_extension. split.
  - destruct v as [| | | | s | |]; unfold isValidImage; try discriminate.
    destruct (nonempty s); cbn [negb]; [| discriminate].
    intros H. apply existsb_exists in H as (ext & Hin & Hext). eauto.
  - intros (url & -> & ext & Hin & Hext). unfold isValidImage.
    destruct url as [| c url].
    + simpl in Hext. rewrite (endsWith_empty ext Hin) in Hext. discriminate.
    + change (nonempty (String c url)) with true. cbn [negb].
      apply existsb_exists. eauto.
Qed.

Lemma isValidImage_not_qualifies v : isValidImage v = false ↔ ¬ qualifies v.
Proof.
  rewrite <- isValidImage_qualifies. destruct (isValidImage v); split;
    intros; try discriminate; try reflexivity; exfalso; auto.
Qed.

(** The head of a filtered list is the first element that passes. *)
Lemma filter_head {A : Type} (f : A → bool) (l : list A) :
  match List.filter f l with
  | x :: _ =>
      ∃ before after, l = before ++ x :: after
                      ∧ Forall (λ y, f y = false) before ∧ f x = true
  | [] => Forall (λ y, f y = false) l
  end.
Proof.
  induction l as [| a l IH]; simpl; [constructor |].
  destruct (f a) eqn:Ha.
  - exists [], l. repeat split; [constructor | assumption].
  - destruct (List.filter f l) as [| x rest].
    + constructor; assumption.
    + destruct IH as (before & after & -> & Hb & Hx).
      exists (a :: before), after. repeat split; [| assumption].
      constructor; assumption.
Qed.

End FirstImage.

(** C7.  For every input, [getFirstImageUrl] returns the first entry of the
    list the input stands for (nothing for null, the string itself, the
    parsed array of a JSON-encoded array, or the native array) that is a
    string whose lower-cased text ends with an extension of the
    allow-list, and it returns nothing when no entry qualifies; so a url
    with a video extension or any other extension outside the list is
    never returned.  [JSON.parse] raises on the empty string. *)
Theorem getFirstImageUrl_first_valid
    (JSON_parse : string → option JsValue) (imageData : JsValue) :
  JSON_parse "" = None →
  match getFirstImageUrl JSON_parse imageData with
  | Some first =>
      ∃ before after,
        entries JSON_parse imageData = before ++ first :: after
        ∧ Forall (λ e, ¬ qualifies e) before
        ∧ qualifies first
  | None => Forall (λ e, ¬ qualifies e) (entries JSON_parse imageData)
  end.
Proof.
  intros Hempty.
  assert (Hlist : ∀ l,
    match (match List.filter isValidImage l with
           | first :: _ => Some first
           | [] => None
           end) with
    | Some first =>
        ∃ before after, l = before ++ first :: after
                        ∧ Forall (λ e, ¬ qualifies e) before ∧ qualifies first
    | None => Forall (λ e, ¬ qualifies e) l
    end).
  { intros l. pose proof (filter_head isValidImage l) as H.
    destruct (List.filter isValidImage l) as [| x rest].
    - eapply Forall_impl; [exact H |].
      intros e. apply isValidImage_not_qualifies.
    - destruct H as (before & after & -> & Hb & Hx).
      exists before, after. repeat split.
      + eapply Forall_impl; [exact Hb |].
        intros e. apply isValidImage_not_qualifies.
      + apply isValidImage_qualifies, Hx. }
  unfold getFirstImageUrl.
  destruct imageData as [| | b | n | s | elements | fields]; simpl;
    try (constructor; fail).
  - destruct b; simpl; constructor.
  - destruct (Qeq_bool n 0); simpl; constructor.
  - destruct s as [| c s]; simpl.
    + rewrite Hempty. repeat constructor.
      intros (url & [= <-] & ext & Hin & Hext).
      simpl in Hext. rewrite (endsWith_empty ext Hin) in Hext. discriminate.
    + destruct (JSON_parse (String c s)) as [[| | | | | parsed |] |];
        apply Hlist.
  - apply Hlist.
Qed.

Lemma getFirstImageUrl_first_valid_witness :
  Samples.parse_gallery "" = None
  ∧ match getFirstImageUrl Samples.parse_gallery
            (JString Samples.gallery_json) with
    | Some first =>
        ∃ before after,
          entries Samples.parse_gallery (JString Samples.gallery_json)
          = before ++ first :: after
          ∧ Forall (λ e, ¬ qualifies e) before
          ∧ qualifies first
    | None =>
        Forall (λ e, ¬ qualifies e)
               (entries Samples.parse_gallery (JString Samples.gallery_json))
    end.
Proof.
  split; [reflexivity |].
  apply (getFirstImageUrl_first_valid Samples.parse_gallery
           (JString Samples.gallery_json)).
  reflexivity.
Defined.

Example getFirstImageUrl_gallery :
  getFirstImageUrl Samples.parse_gallery (JString Samples.gallery_json)
  = Some (JString "photo.PNG").
Proof. reflexivity. Qed.

Example getFirstImageUrl_video_only :
  getFirstImageUrl Samples.parse_gallery (JString "http://cdn/clip.mp4")
  = None.
Proof. reflexivity. Qed.

(** ** Catalog normalizer *)

Section CatalogNormalizer.

Import Normalizer.

Lemma keepImage_nonblank v : keepImage v = nonblank_string v.
Proof.
  destruct v as [| | b | n | s | |]; try reflexivity.
  - unfold keepImage. simpl. destruct b; reflexivity.
  - unfold keepImage. simpl. destruct (Qeq_bool n 0); reflexivity.
  - unfold keepImage, nonblank_string, truthy, typeof_string, trim_truthy,
      nonempty.
    destruct (negb (String.eqb s "")); reflexivity.
Qed.

Lemma filter_keepImage l :
  List.filter keepImage l = List.filter nonblank_string l.
Proof. apply filter_ext. intros v. apply keepImage_nonblank. Qed.

(** The two closing steps on the filtered entries or on nothing. *)
Lemma finish_Some kept image_url :
  finish (Some kept) image_url
  = match kept with
    | [] => match image_url with
            | Some u => if keepString u then Some [JString u] else None
            | None => None
            end
    | _ => Some kept
    end.
Proof.
  unfold finish. destruct kept as [| x kept], image_url as [u |]; simpl;
    try reflexivity.
  destruct (keepString u); reflexivity.
Qed.

Lemma finish_None image_url :
  finish None image_url
  = match image_url with
    | Some u => if keepString u then Some [JString u] else None
    | None => None
    end.
Proof.
  unfold finish. destruct image_url as [u |]; simpl; [| reflexivity].
  destruct (keepString u); reflexivity.
Qed.

Lemma media_nonblank_fallback_unfold JSON_parse p :
  media_nonblank_fallback JSON_parse p
  = match List.filter nonblank_string
            (entries JSON_parse (raw_images p)) with
    | [] => match raw_image_url p with
            | Some u => if keepString u then Some [JString u] else None
            | None => None
            end
    | kept => Some kept
    end.
Proof. reflexivity. Qed.

Lemma Home_normalizeImages_media JSON_parse p :
  Home.normalizeImages JSON_parse p = media_nonblank_fallback JSON_parse p.
Proof.
  rewrite media_nonblank_fallback_unfold. unfold Home.normalizeImages.
  destruct (raw_images p) as [| | b | n | s | elements | fields]; simpl;
    try apply finish_None.
  - destruct (JSON_parse s) as [[| | | | | parsed |] |]; simpl;
      try (unfold keepString; destruct (nonempty s && nonempty (trim s));
           rewrite ?finish_Some, ?finish_None; reflexivity).
    rewrite finish_Some, filter_keepImage.
    destruct (List.filter nonblank_string parsed); reflexivity.
  - rewrite finish_Some, filter_keepImage.
    destruct (List.filter nonblank_string elements); reflexivity.
Qed.

Lemma ProductDetails_normalizeImages_media JSON_parse p :
  ProductDetails.normalizeImages JSON_parse p
  = media_nonblank_fallback JSON_parse p.
Proof.
  rewrite media_nonblank_fallback_unfold.
  unfold ProductDetails.normalizeImages.
  destruct (raw_images p) as [| | b | n | s | elements | fields]; simpl;
    try apply finish_None.
  - destruct (JSON_parse s) as [[| | | | | parsed |] |]; simpl;
      try (unfold keepString; destruct (nonempty s && nonempty (trim s));
           rewrite ?finish_Some, ?finish_None; reflexivity).
    rewrite finish_Some, filter_keepImage.
    destruct (List.filter nonblank_string parsed); reflexivity.
  - rewrite finish_Some, filter_keepImage.
    destruct (List.filter nonblank_string elements); reflexivity.
Qed.

End CatalogNormalizer.

(** A list of non-blank strings that is not empty is already canonical:
    the normalizer returns it unchanged. *)
Lemma normalizeImages_canonical JSON_parse (l : list JsValue) image_url :
  l ≠ [] → forallb nonblank_string l = true →
  Home.normalizeImages JSON_parse
    {| raw_images := JArray l; raw_image_url := image_url |}
  = Some l.
Proof.
  intros Hne Hall. rewrite Home_normalizeImages_media.
  unfold media_nonblank_fallback, media, entries. cbn [raw_images].
  assert (List.filter nonblank_string l = l) as ->.
  { clear Hne. induction l as [| x l IH]; [reflexivity |].
    cbn in Hall |- *. apply andb_prop in Hall as [-> Hall].
    f_equal. apply IH, Hall. }
  destruct l; [congruence | reflexivity].
Qed.

Example normalizeImages_native_array :
  Home.normalizeImages Samples.parse_gallery
    {| raw_images :=
         JArray [JString ""; JString "  "; JString "a.png"; JNull;
                 JNumber 3; JString "b.mp4"];
       raw_image_url := Some "legacy.jpg" |}
  = Some [JString "a.png"; JString "b.mp4"].
Proof. reflexivity. Qed.

Example normalizeImages_json_text :
  ProductDetails.normalizeImages Samples.parse_gallery
    {| raw_images := JString Samples.gallery_json; raw_image_url := None |}
  = Some [JString "clip.mp4"; JString "photo.PNG"].
Proof. reflexivity. Qed.

Example normalizeImages_legacy_fallback :
  Home.normalizeImages Samples.parse_gallery
    {| raw_images := JArray [JString " "];
       raw_image_url := Some "legacy.jpg" |}
  = Some [JString "legacy.jpg"]
  ∧ Home.normalizeImages Samples.parse_gallery
      {| raw_images := JNull; raw_image_url := None |}
    = None.
Proof. split; reflexivity. Qed.

(** C6, as stated, fails: with no [images] and the [image_url] of one
    space, which is present and not empty, both normalizers give nothing,
    where the specification gives the list of that url. *)
Lemma normalizeImages_blank_image_url :
  Home.normalizeImages Samples.parse_gallery Samples.blank_url_product = None
  ∧ ProductDetails.normalizeImages Samples.parse_gallery
      Samples.blank_url_product = None
  ∧ media_nonempty_fallback Samples.parse_gallery Samples.blank_url_product
    = Some [JString " "].
Proof. repeat split. Qed.

(** C6, amended.  For every raw product record, the normalizers of the
    catalog page and of the product page produce the same media list: a
    string [images] field is JSON-parsed, taking the array on success and
    the original string as a one-element list otherwise; a native array is
    kept; the result is filtered to the non-empty, non-blank string
    entries in their order; if the filtered list is empty, the legacy
    [image_url], when present and not blank, is used as a one-element
    list; and when no valid media exists the result is undefined, never
    the empty list and never an error. *)
Theorem normalizeImages_media
    (JSON_parse : string → option JsValue) (p : RawProduct) :
  Home.normalizeImages JSON_parse p = media_nonblank_fallback JSON_parse p
  ∧ ProductDetails.normalizeImages JSON_parse p
    = media_nonblank_fallback JSON_parse p
  ∧ Home.normalizeImages JSON_parse p ≠ Some [].
Proof.
  split; [apply Home_normalizeImages_media |].
  split; [apply ProductDetails_normalizeImages_media |].
  rewrite Home_normalizeImages_media. unfold media_nonblank_fallback, media.
  destruct (List.filter nonblank_string _); [| discriminate].
  destruct (raw_image_url p) as [u |]; [| discriminate].
  destruct (nonempty u && nonempty (trim u)); discriminate.
Qed.

(** ** Pagination *)

Section Pagination.

Context {A : Type}.
Implicit Types (l : list A) (p : Z).

(** The rational ceiling of [n / 12] in integer arithmetic. *)
Lemma totalPages_div l :
  Home.totalPages l = (Z.of_nat (length l) + 11) / 12.
Proof.
  unfold Home.totalPages, Home.ITEMS_PER_PAGE, Qceiling, Qfloor.
  cbn [Qdiv Qinv Qmult Qopp inject_Z Qnum Qden].
  change (Z.pos (1 * 12)) with 12.
  generalize (Z.of_nat (length l)). intros n.
  Z.div_mod_to_equations. lia.
Qed.

Lemma slice_from_page l p :
  1 ≤ p →
  Home.paginatedProducts l p
  = take 12 (drop (Z.to_nat ((p - 1) * 12)) l).
Proof.
  intros Hp. unfold Home.paginatedProducts, Home.slice, Home.ITEMS_PER_PAGE.
  set (n := Z.of_nat (length l)). set (start := (p - 1) * 12).
  assert (0 ≤ start) by (unfold start; lia). clearbody start.
  destruct (Z.ltb_spec start 0) as [? | _]; [lia |].
  destruct (Z.ltb_spec (start + 12) 0) as [? | _]; [lia |].
  destruct (Z.le_gt_cases n start) as [Hge | Hlt].
  - rewrite !Z.min_r by lia.
    rewrite (drop_ge l (Z.to_nat n)) by (unfold n; lia).
    rewrite (drop_ge l (Z.to_nat start)) by (unfold n in Hge; lia).
    rewrite !take_nil. reflexivity.
  - rewrite (Z.min_l start n) by lia.
    destruct (Z.le_gt_cases n (start + 12)) as [Hlast | Hfull].
    + rewrite Z.min_r by lia.
      rewrite !take_ge; [reflexivity | |];
        rewrite length_drop; unfold n in *; lia.
    + rewrite Z.min_l by lia. f_equal. lia.
Qed.

End Pagination.

(** C8.  For every list of [n] sorted products the page count is the
    ceiling of [n / 12], the least count of pages of 12 that hold [n]
    items, so 0 for no item; the page of index [p], counted from 1, holds
    exactly the items at the positions [(p-1)*12] to [p*12-1], in their
    order; 25 items make 3 pages and page 3 holds exactly 1 item. *)
Theorem pagination_pages {A : Type} (sortedProducts : list A) (p : Z) :
  1 ≤ p →
  let n := Z.of_nat (length sortedProducts) in
  let pages := Home.totalPages sortedProducts in
  12 * (pages - 1) < n ≤ 12 * pages
  ∧ (n = 0 → pages = 0)
  ∧ (∀ i : nat,
       Home.paginatedProducts sortedProducts p !! i
       = if (i <? 12)%nat
         then item_at sortedProducts ((p - 1) * 12 + Z.of_nat i)
         else None)
  ∧ (n = 25 →
     pages = 3 ∧ length (Home.paginatedProducts sortedProducts 3) = 1%nat).
Proof.
  intros Hp n pages. subst pages. rewrite totalPages_div. fold n.
  split; [Z.div_mod_to_equations; lia |].
  split; [intros ->; reflexivity |].
  split.
  - intros i. rewrite slice_from_page by assumption.
    unfold item_at.
    destruct (Z.ltb_spec ((p - 1) * 12 + Z.of_nat i) 0) as [? | _]; [lia |].
    destruct (Nat.ltb_spec i 12) as [Hi | Hi].
    + rewrite lookup_take_lt by assumption. rewrite lookup_drop.
      f_equal. lia.
    + apply lookup_take_ge. assumption.
  - intros Hn. split; [rewrite Hn; reflexivity |].
    rewrite slice_from_page by lia.
    rewrite length_take, length_drop.
    change (Z.to_nat ((3 - 1) * 12)) with 24%nat. unfold n in Hn. lia.
Qed.

Lemma pagination_pages_witness :
  1 ≤ 3
  ∧ let sortedProducts := seq 0 25 in
    let n := Z.of_nat (length sortedProducts) in
    let pages := Home.totalPages sortedProducts in
    12 * (pages - 1) < n ≤ 12 * pages
    ∧ (n = 0 → pages = 0)
    ∧ (∀ i : nat,
         Home.paginatedProducts sortedProducts 3 !! i
         = if (i <? 12)%nat
           then item_at sortedProducts ((3 - 1) * 12 + Z.of_nat i)
           else None)
    ∧ (n = 25 →
       pages = 3 ∧ length (Home.paginatedProducts sortedProducts 3) = 1%nat).
Proof.
  split; [lia |]. apply (pagination_pages (seq 0 25) 3). lia.
Defined.

Example pagination_25_page_3 :
  Home.totalPages (seq 0 25) = 3
  ∧ Home.paginatedProducts (seq 0 25) 3 = [24%nat]
  ∧ Home.paginatedProducts (seq 0 25) 1 = seq 0 12
  ∧ Home.totalPages (@nil nat) = 0.
Proof. repeat split. Qed.

(** ** Analytics emitter *)

(** C9, as stated, fails: once the tracking library is loaded, an error
    raised by the tracking call leaves [fbqTrack] as raised; nothing
    catches it. *)
Lemma fbqTrack_propagates_error :
  FbPixel.completion
    (FbPixel.fbqTrack Samples.loaded_window "AddToCart" [])
  = FbPixel.Raises (JString "network error").
Proof. reflexivity. Qed.

(** C9, amended.  For every event name and property mapping: if the
    tracking library has not loaded, [fbqTrack] warns once and returns;
    if it has loaded, [fbqTrack] warns nothing and ends as the one
    tracking call ["track", event, data] ends, so it fails its caller
    exactly when that call raises. *)
Theorem fbqTrack_completion (window : FbPixel.Window) (event : string)
    (data : list (string * JsValue)) :
  match FbPixel.fbq window with
  | None =>
      FbPixel.fbqTrack window event data
      = {| FbPixel.warnings := [("FB Pixel not loaded yet:", event, data)];
           FbPixel.completion := FbPixel.Returns |}
  | Some f =>
      FbPixel.warnings (FbPixel.fbqTrack window event data) = []
      ∧ ∀ thrown,
          FbPixel.completion (FbPixel.fbqTrack window event data)
          = FbPixel.Raises thrown
          ↔ f "track" event data = FbPixel.Raises thrown
  end.
Proof.
  unfold FbPixel.fbqTrack. destruct (FbPixel.fbq window) as [f |]; simpl.
  - split; [reflexivity |]. intros thrown. reflexivity.
  - reflexivity.
Qed.


(** ** Checkout *)

Section CheckoutFacts.

Context {num : Type} `{!JsNumber num}.
Implicit Types (net : Network num) (formData : FormData)
  (deliveryCharges : DeliveryCharges num) (items : list (CartItem num))
  (rows : list (ProductRow num)) (w : World num).

(** *** The checks before the [try] block *)

Lemma invalidItem_line_ok (item : CartItem num) :
  invalidItem item = negb (line_ok item).
Proof.
  unfold invalidItem, line_ok. rewrite (Z.ltb_antisym _ 0).
  destruct (nonempty (item_id item)), (nonempty (item_name item)),
    (num_le0 (item_price item)), (item_quantity item <=? 0); reflexivity.
Qed.

Lemma cart_valid_checks items :
  cart_valid items = true →
  Nat.eqb (length items) 0 = false ∧ existsb invalidItem items = false.
Proof.
  intros Hcart. split.
  - destruct items; [discriminate | reflexivity].
  - assert (Hall : forallb line_ok items = true)
      by (destruct items; [discriminate | exact Hcart]).
    apply not_true_is_false. intros H.
    apply existsb_exists in H as (item & Hin & Hinv).
    rewrite forallb_forall in Hall.
    rewrite invalidItem_line_ok, (Hall item Hin) in Hinv. discriminate.
Qed.

Lemma handleSubmit_validated net formData deliveryCharges items :
  cart_valid items = true → contact_valid formData = true →
  handleSubmit net formData deliveryCharges items
  = (setLoading true ;;
     try_catch_finally
       (submitOrder net formData deliveryCharges items)
       (fun e => toast (toast_error (caught_message_or e OrderFailed)))
       (setLoading false)).
Proof.
  intros Hcart Hform. unfold handleSubmit.
  destruct (cart_valid_checks items Hcart) as [-> ->].
  unfold contact_valid in Hform.
  apply andb_prop in Hform as [Hform Haddr].
  apply andb_prop in Hform as [Hform Hre].
  apply andb_prop in Hform as [Hname Hphone].
  apply negb_true_iff in Hname, Hphone, Haddr.
  rewrite Hname, Hphone, Hre, Haddr. reflexivity.
Qed.

(** *** The fetched rows and the lines of the cart *)

Lemma in_existingIds rows (item : CartItem num) :
  bool_decide (item_id item ∈ existingIds (Some rows)) = fetched rows item.
Proof.
  unfold fetched, existingIds. apply bool_decide_ext.
  apply elem_of_list_to_set.
Qed.

Lemma missingItems_missing_lines items rows :
  missingItems items (Some rows) = missing_lines rows items.
Proof.
  unfold missingItems, missing_lines. apply filter_ext.
  intros item. rewrite in_existingIds. reflexivity.
Qed.

Lemma filter_none {B : Type} (f : B → bool) (l : list B) :
  forallb (λ x, negb (f x)) l = true → List.filter f l = [].
Proof.
  induction l as [| x l IH]; simpl; [reflexivity |].
  intros H. apply andb_prop in H as [Hx Hl].
  apply negb_true_iff in Hx. rewrite Hx. auto.
Qed.

Lemma filter_all {B : Type} (f : B → bool) (l : list B) :
  forallb f l = true → List.filter f l = l.
Proof.
  induction l as [| x l IH]; simpl; [reflexivity |].
  intros H. apply andb_prop in H as [-> Hl]. f_equal. auto.
Qed.

Lemma forallb_pointwise {B : Type} (f g : B → bool) (l : list B) :
  (∀ x, f x = g x) → forallb f l = forallb g l.
Proof.
  intros Hfg. induction l as [| x l IH]; simpl; [reflexivity |].
  rewrite Hfg, IH. reflexivity.
Qed.

Lemma every_id_fetched_none_missing items rows :
  every_id_fetched items rows = true → missing_lines rows items = [].
Proof.
  intros H. apply filter_none.
  rewrite <- H. apply forallb_pointwise.
  intros item. apply negb_involutive.
Qed.

Lemma someProduct_fetched rows (item : CartItem num) :
  someProduct (Some rows) (item_id item) = fetched rows item.
Proof.
  unfold someProduct, fetched.
  destruct (existsb _ rows) eqn:E; symmetry.
  - apply bool_decide_eq_true. apply existsb_exists in E as (row & Hin & Heq).
    apply String.eqb_eq in Heq. rewrite <- Heq.
    apply list_elem_of_In, in_map, Hin.
  - apply bool_decide_eq_false. intros Hin.
    apply list_elem_of_In, in_map_iff in Hin as (row & Heq & Hin).
    assert (existsb (λ p, String.eqb (product_id p) (item_id item)) rows
            = true) as Hex; [| congruence].
    apply existsb_exists. exists row. split; [assumption |].
    apply String.eqb_eq, Heq.
Qed.

(** The order items are those of the lines with a fetched row. *)
Lemma orderItems_fetched id items rows :
  orderItems id items (Some rows)
  = List.map (order_item_of id) (List.filter (fetched rows) items).
Proof.
  unfold orderItems. f_equal. apply filter_ext.
  intros item. apply someProduct_fetched.
Qed.

(** With a row for every line, the order items are one per line. *)
Lemma orderItems_every_line id items rows :
  every_id_fetched items rows = true →
  orderItems id items (Some rows) = List.map (order_item_of id) items.
Proof.
  intros H. rewrite orderItems_fetched, filter_all; [reflexivity | exact H].
Qed.

(** *** The stock check *)

Lemma outOfStockItems_insufficient_lines items rows :
  outOfStockItems items (Some rows) = insufficient_lines rows items.
Proof.
  unfold outOfStockItems, insufficient_lines.
  induction items as [| item items IH]; [reflexivity |].
  cbn [flat_map List.filter]. rewrite IH. unfold insufficient at 2.
  change (findProduct (Some rows) (item_id item)) with (live_row rows item).
  destruct (live_row rows item) as [row |] eqn:Hrow; [| reflexivity].
  destruct (product_stock row <? item_quantity item); [| reflexivity].
  cbn [omap list_omap]. rewrite Hrow. reflexivity.
Qed.

Lemma insufficient_lines_nil items rows :
  existsb (insufficient rows) items = false →
  insufficient_lines rows items = [].
Proof.
  intros H. unfold insufficient_lines. rewrite filter_none; [reflexivity |].
  induction items as [| item items IH]; [reflexivity |].
  simpl in *. apply orb_false_elim in H as [-> H]. simpl. auto.
Qed.

Lemma insufficient_lines_cons items rows :
  existsb (insufficient rows) items = true →
  ∃ line rest, insufficient_lines rows items = line :: rest.
Proof.
  unfold insufficient_lines.
  induction items as [| item items IH]; [discriminate |].
  cbn [existsb List.filter]. destruct (insufficient rows item) eqn:Hi.
  - intros _. unfold insufficient in Hi.
    destruct (live_row rows item) as [row |] eqn:Hrow; [| discriminate].
    cbn [omap list_omap]. rewrite Hrow. eauto.
  - exact IH.
Qed.

End CheckoutFacts.

(** C1.  For every submission that reaches the stock check (cart valid,
    contact data valid, a row fetched for every line of the cart), if the
    live stock of some line is strictly less than its quantity, the
    checkout rejects with the out-of-stock error that lists exactly the
    insufficient lines by product name and available stock; no order row
    and no order item is inserted, and the cart store is unchanged. *)
Theorem checkout_out_of_stock {num : Type} `{!JsNumber num}
    (net : Network num) (formData : FormData)
    (deliveryCharges : DeliveryCharges num) (w : World num)
    (rows : list (ProductRow num)) :
  cart_valid (cart w) = true →
  contact_valid formData = true →
  products_answer net = {| data := Some rows; error := None |} →
  every_id_fetched (cart w) rows = true →
  existsb (insufficient rows) (cart w) = true →
  let w' := submit net formData deliveryCharges w in
  toasts w'
  = toasts w ++ [toast_error (OutOfStock (insufficient_lines rows (cart w)))]
  ∧ insufficient_lines rows (cart w) ≠ []
  ∧ orders w' = orders w
  ∧ order_items w' = order_items w
  ∧ cart w' = cart w
  ∧ orderId w' = orderId w
  ∧ orderConfirmed w' = orderConfirmed w
  ∧ loading w' = false.
Proof.
  intros Hcart Hform Hans Hall Hsome w'. subst w'. unfold submit.
  rewrite handleSubmit_validated by assumption.
  unfold_steps. rewrite Hans. cbn [data error].
  rewrite missingItems_missing_lines, every_id_fetched_none_missing
    by assumption.
  rewrite outOfStockItems_insufficient_lines.
  destruct (insufficient_lines_cons _ _ Hsome) as (line & rest & ->).
  destruct (negb (Nat.eqb (length rows) (length (cart w)))); cbn;
    repeat split; discriminate.
Qed.

Lemma checkout_out_of_stock_witness :
  cart_valid (cart Samples.world) = true
  ∧ contact_valid Samples.form = true
  ∧ products_answer (Samples.net_ok Samples.rows_short)
    = {| data := Some Samples.rows_short; error := None |}
  ∧ every_id_fetched (cart Samples.world) Samples.rows_short = true
  ∧ existsb (insufficient Samples.rows_short) (cart Samples.world) = true
  ∧ let w' := submit (Samples.net_ok Samples.rows_short) Samples.form
                defaultDeliveryCharges Samples.world in
    toasts w'
    = toasts Samples.world
      ++ [toast_error
            (OutOfStock
               (insufficient_lines Samples.rows_short (cart Samples.world)))]
    ∧ insufficient_lines Samples.rows_short (cart Samples.world) ≠ []
    ∧ orders w' = orders Samples.world
    ∧ order_items w' = order_items Samples.world
    ∧ cart w' = cart Samples.world
    ∧ orderId w' = orderId Samples.world
    ∧ orderConfirmed w' = orderConfirmed Samples.world
    ∧ loading w' = false.
Proof.
  repeat (split; [reflexivity |]).
  apply (checkout_out_of_stock (Samples.net_ok Samples.rows_short)
           Samples.form defaultDeliveryCharges Samples.world
           Samples.rows_short); reflexivity.
Defined.

(** The scenario of the specification: A with stock 5 and B with stock 2,
    3 of each in the cart; the rejection names B only. *)
Example checkout_out_of_stock_names_B :
  toasts (submit (Samples.net_ok Samples.rows_short) Samples.form
            defaultDeliveryCharges Samples.world)
  = [toast_error (OutOfStock [("Beta", 2)])].
Proof. reflexivity. Qed.

Section CheckoutSubmitting.

Context {num : Type} `{!JsNumber num}.
Implicit Types (net : Network num) (formData : FormData)
  (deliveryCharges : DeliveryCharges num) (items : list (CartItem num))
  (rows : list (ProductRow num)) (w : World num).

Lemma passes_validation_parts formData items rows :
  passes_validation formData items rows = true →
  cart_valid items = true ∧ contact_valid formData = true
  ∧ every_id_fetched items rows = true
  ∧ existsb (insufficient rows) items = false.
Proof.
  unfold passes_validation. intros H.
  apply andb_prop in H as [H Hstock].
  apply andb_prop in H as [H Hall].
  apply andb_prop in H as [Hcart Hform].
  apply negb_true_iff in Hstock. auto.
Qed.

Lemma passes_validation_reaches_insert formData items rows :
  passes_validation formData items rows = true →
  reaches_insert formData items rows = true
  ∧ List.filter (fetched rows) items = items
  ∧ items ≠ [].
Proof.
  intros H. apply passes_validation_parts in H as (Hcart & Hform & Hall & Hs).
  unfold reaches_insert. rewrite Hcart, Hform, Hall, Hs, orb_true_r.
  split; [reflexivity |]. split; [apply filter_all, Hall |].
  destruct items; [discriminate | congruence].
Qed.

Lemma newOrder_order_of items formData deliveryCharges :
  newOrder items formData deliveryCharges
  = order_of items formData deliveryCharges.
Proof. reflexivity. Qed.

(** The world after a submission that reaches the insert of the order
    and whose order row is stored under [id]. *)
Lemma submit_order_stored net formData deliveryCharges w rows id :
  reaches_insert formData (cart w) rows = true →
  products_answer net = {| data := Some rows; error := None |} →
  orders_insert_answer net = inl id →
  nonempty id = true →
  let order := order_of (cart w) formData deliveryCharges in
  let lines :=
    List.map (order_item_of id) (List.filter (fetched rows) (cart w)) in
  let failed m :=
    {| cart := cart w;
       orders :=
         if orders_delete_applies net
         then List.filter (fun row => negb (String.eqb (fst row) id))
                (orders w ++ [(id, order)])
         else orders w ++ [(id, order)];
       order_items := order_items w; loading := false;
       orderId := orderId w; orderConfirmed := orderConfirmed w;
       toasts := toasts w ++ [toast_error m] |} in
  submit net formData deliveryCharges w
  = match lines with
    | [] => failed NoValidProducts
    | _ =>
        match order_items_insert_answer net with
        | None =>
            {| cart := []; orders := orders w ++ [(id, order)];
               order_items := order_items w ++ lines; loading := false;
               orderId := Some id; orderConfirmed := true;
               toasts := toasts w ++ [toast_success OrderPlaced] |}
        | Some e => failed (message_or (message e) OrderItemsFailed)
        end
    end.
Proof.
  intros Hreach Hans Hid Hne order lines failed. subst order lines failed.
  unfold reaches_insert in Hreach.
  apply andb_prop in Hreach as [Hreach Hstock].
  apply andb_prop in Hreach as [Hreach Hrows].
  apply andb_prop in Hreach as [Hcart Hform].
  apply negb_true_iff in Hstock.
  unfold submit. rewrite handleSubmit_validated by assumption.
  unfold_steps. rewrite Hans, Hid. cbn [data error].
  rewrite outOfStockItems_insufficient_lines, insufficient_lines_nil
    by assumption.
  rewrite orderItems_fetched, Hne, newOrder_order_of.
  assert (Hchecked :
    (if negb (Nat.eqb (length rows) (length (cart w)))
     then
       if Nat.ltb 0 (length (missingItems (cart w) (Some rows)))
       then true else false
     else false) = false).
  { destruct (Nat.eqb (length rows) (length (cart w))); [reflexivity |].
    cbn in Hrows |- *.
    rewrite missingItems_missing_lines, every_id_fetched_none_missing
      by assumption.
    reflexivity. }
  destruct (negb (Nat.eqb (length rows) (length (cart w))));
    [destruct (Nat.ltb 0 (length (missingItems (cart w) (Some rows))));
     [discriminate |] |];
    cbn;
    (destruct (List.map (order_item_of id)
                 (List.filter (fetched rows) (cart w))) as [| line lines];
     cbn;
     [destruct (orders_delete_applies net); reflexivity |]);
    destruct (order_items_insert_answer net) as [e |]; cbn;
    try reflexivity;
    destruct (orders_delete_applies net); cbn;
    unfold caught_message_or, message_or;
    destruct (nonempty (message e)) eqn:Htext; cbn; rewrite ?Htext;
    reflexivity.
Qed.

(** The effect of the compensating delete on the table. *)
Lemma orders_after_delete (table : list (string * OrderRow num)) id order :
  let kept :=
    List.filter (fun row => negb (String.eqb (fst row) id))
                (table ++ [(id, order)]) in
  ¬ In id (List.map fst kept)
  ∧ (¬ In id (List.map fst table) → kept = table).
Proof.
  intros kept. subst kept. split.
  - intros Hin. apply in_map_iff in Hin as ([id' row] & Heq & Hin).
    apply filter_In in Hin as [_ Hkeep]. simpl in Heq, Hkeep. subst id'.
    rewrite String.eqb_refl in Hkeep. discriminate.
  - intros Hnew. rewrite List.filter_app. cbn [List.filter fst].
    rewrite String.eqb_refl. cbn [negb]. rewrite app_nil_r.
    apply filter_all. apply forallb_forall. intros [id' row] Hin.
    cbn [fst]. apply negb_true_iff, String.eqb_neq. intros ->. apply Hnew.
    apply in_map_iff. exists (id, row). auto.
Qed.

End CheckoutSubmitting.

(** The tables, the cart and the state of the page after a submission
    that passes the validation and whose two inserts succeed: exactly one
    order row is inserted, with the status "pending" and with the total
    amount equal to the sum of the line subtotals of the cart (price times
    quantity) plus the delivery charge of the chosen location, rounded to
    2 decimals; the cart store is cleared, and the new order id and the
    confirmation flag are set. *)
Theorem checkout_success {num : Type} `{!JsNumber num}
    (net : Network num) (formData : FormData)
    (deliveryCharges : DeliveryCharges num) (w : World num)
    (rows : list (ProductRow num)) (id : string) :
  passes_validation formData (cart w) rows = true →
  products_answer net = {| data := Some rows; error := None |} →
  orders_insert_answer net = inl id →
  nonempty id = true →
  order_items_insert_answer net = None →
  let w' := submit net formData deliveryCharges w in
  let order := order_of (cart w) formData deliveryCharges in
  orders w' = orders w ++ [(id, order)]
  ∧ status order = "pending"
  ∧ total_amount order
    = num_toFixed2
        (num_add (totalPrice (cart w))
           (match form_location formData with
            | inside_dhaka => charge_inside_dhaka deliveryCharges
            | outside_dhaka => charge_outside_dhaka deliveryCharges
            end))
  ∧ cart w' = []
  ∧ orderId w' = Some id
  ∧ orderConfirmed w' = true
  ∧ toasts w' = toasts w ++ [toast_success OrderPlaced]
  ∧ loading w' = false.
Proof.
  intros Hpass Hans Hid Hne Hitems w' order. subst w'.
  destruct (passes_validation_reaches_insert _ _ _ Hpass)
    as (Hreach & Hall & Hcart).
  rewrite (submit_order_stored net formData deliveryCharges w rows id)
    by assumption.
  rewrite Hall, Hitems.
  destruct (cart w) as [| line lines]; [congruence |]. repeat split.
Qed.

Lemma checkout_success_witness :
  passes_validation Samples.form (cart Samples.world) Samples.rows_ok = true
  ∧ products_answer (Samples.net_ok Samples.rows_ok)
    = {| data := Some Samples.rows_ok; error := None |}
  ∧ orders_insert_answer (Samples.net_ok Samples.rows_ok) = inl "order-1"
  ∧ nonempty "order-1" = true
  ∧ order_items_insert_answer (Samples.net_ok Samples.rows_ok) = None
  ∧ let w' := submit (Samples.net_ok Samples.rows_ok) Samples.form
                defaultDeliveryCharges Samples.world in
    let order :=
      order_of (cart Samples.world) Samples.form defaultDeliveryCharges in
    orders w' = orders Samples.world ++ [("order-1", order)]
    ∧ status order = "pending"
    ∧ total_amount order
      = num_toFixed2
          (num_add (totalPrice (cart Samples.world))
             (match form_location Samples.form with
              | inside_dhaka => charge_inside_dhaka defaultDeliveryCharges
              | outside_dhaka => charge_outside_dhaka defaultDeliveryCharges
              end))
    ∧ cart w' = []
    ∧ orderId w' = Some "order-1"
    ∧ orderConfirmed w' = true
    ∧ toasts w' = toasts Samples.world ++ [toast_success OrderPlaced]
    ∧ loading w' = false.
Proof.
  repeat (split; [reflexivity |]).
  apply (checkout_success (Samples.net_ok Samples.rows_ok) Samples.form
           defaultDeliveryCharges Samples.world Samples.rows_ok "order-1");
    reflexivity.
Defined.

(** 3 of A at 10.50 and 3 of B at 19.999, delivered outside Dhaka for 120:
    31.5 + 59.997 + 120 = 211.497, stored as 211.50. *)
(** C4, where the code misses the claim.  For every submission that
    passes the validation and whose two inserts succeed, the order row is
    inserted as the claim says (one row, status "pending", the rounded
    total) and the cart store is cleared; the new order id is set in the
    state of the page, but it is not exposed to the user: with the cart
    cleared the component returns the view of the empty cart, which holds
    no confirmation dialog, so no order id stands on the page. *)
Theorem checkout_success_hides_order_id {num : Type} `{!JsNumber num}
    (net : Network num) (formData : FormData)
    (deliveryCharges : DeliveryCharges num) (w : World num)
    (rows : list (ProductRow num)) (id : string) :
  passes_validation formData (cart w) rows = true →
  products_answer net = {| data := Some rows; error := None |} →
  orders_insert_answer net = inl id →
  nonempty id = true →
  order_items_insert_answer net = None →
  let w' := submit net formData deliveryCharges w in
  let order := order_of (cart w) formData deliveryCharges in
  orders w' = orders w ++ [(id, order)]
  ∧ status order = "pending"
  ∧ total_amount order
    = num_toFixed2
        (num_add (totalPrice (cart w))
           (match form_location formData with
            | inside_dhaka => charge_inside_dhaka deliveryCharges
            | outside_dhaka => charge_outside_dhaka deliveryCharges
            end))
  ∧ cart w' = []
  ∧ orderId w' = Some id
  ∧ orderConfirmed w' = true
  ∧ CartPage.render w' = CartPage.EmptyCartView
  ∧ CartPage.shownOrderId w' = None.
Proof.
  intros Hpass Hans Hid Hne Hitems w' order. subst w'.
  destruct (passes_validation_reaches_insert _ _ _ Hpass)
    as (Hreach & Hall & Hcart).
  unfold CartPage.shownOrderId, CartPage.render.
  rewrite (submit_order_stored net formData deliveryCharges w rows id)
    by assumption.
  rewrite Hall, Hitems.
  destruct (cart w) as [| line lines]; [congruence |]. repeat split.
Qed.

Lemma checkout_success_hides_order_id_witness :
  passes_validation Samples.form (cart Samples.world) Samples.rows_ok = true
  ∧ products_answer (Samples.net_ok Samples.rows_ok)
    = {| data := Some Samples.rows_ok; error := None |}
  ∧ orders_insert_answer (Samples.net_ok Samples.rows_ok) = inl "order-1"
  ∧ nonempty "order-1" = true
  ∧ order_items_insert_answer (Samples.net_ok Samples.rows_ok) = None
  ∧ orders (submit (Samples.net_ok Samples.rows_ok) Samples.form
              defaultDeliveryCharges Samples.world)
    = orders Samples.world
      ++ [("order-1",
           order_of (cart Samples.world) Samples.form
             defaultDeliveryCharges)]
  ∧ status
      (order_of (cart Samples.world) Samples.form defaultDeliveryCharges)
    = "pending"
  ∧ total_amount
      (order_of (cart Samples.world) Samples.form defaultDeliveryCharges)
    = num_toFixed2
        (num_add (totalPrice (cart Samples.world))
           (match form_location Samples.form with
            | inside_dhaka => charge_inside_dhaka defaultDeliveryCharges
            | outside_dhaka => charge_outside_dhaka defaultDeliveryCharges
            end))
  ∧ cart (submit (Samples.net_ok Samples.rows_ok) Samples.form
            defaultDeliveryCharges Samples.world) = []
  ∧ orderId (submit (Samples.net_ok Samples.rows_ok) Samples.form
               defaultDeliveryCharges Samples.world) = Some "order-1"
  ∧ orderConfirmed (submit (Samples.net_ok Samples.rows_ok) Samples.form
                      defaultDeliveryCharges Samples.world) = true
  ∧ CartPage.render (submit (Samples.net_ok Samples.rows_ok) Samples.form
                       defaultDeliveryCharges Samples.world)
    = CartPage.EmptyCartView
  ∧ CartPage.shownOrderId
      (submit (Samples.net_ok Samples.rows_ok) Samples.form
         defaultDeliveryCharges Samples.world) = None.
Proof.
  repeat (split; [reflexivity |]).
  apply (checkout_success_hides_order_id (Samples.net_ok Samples.rows_ok)
           Samples.form defaultDeliveryCharges Samples.world
           Samples.rows_ok "order-1");
    reflexivity.
Defined.

(** The page after the successful submission of the sample cart: the id
    "order-1" is in the state, the view is that of the empty cart, and no
    id stands on it.  With the same state and a line left in the cart the
    dialog would print the id. *)
Example checkout_confirmation_not_rendered :
  orderId (submit (Samples.net_ok Samples.rows_ok) Samples.form
             defaultDeliveryCharges Samples.world) = Some "order-1"
  ∧ orderConfirmed (submit (Samples.net_ok Samples.rows_ok) Samples.form
                      defaultDeliveryCharges Samples.world) = true
  ∧ CartPage.render (submit (Samples.net_ok Samples.rows_ok) Samples.form
                       defaultDeliveryCharges Samples.world)
    = CartPage.EmptyCartView
  ∧ CartPage.shownOrderId
      (submit (Samples.net_ok Samples.rows_ok) Samples.form
         defaultDeliveryCharges Samples.world) = None
  ∧ CartPage.shownOrderId
      (with_cart (fun _ => cart Samples.world)
         (submit (Samples.net_ok Samples.rows_ok) Samples.form
            defaultDeliveryCharges Samples.world)) = Some "order-1".
Proof. repeat split. Qed.

Example checkout_success_total :
  List.map (fun row => (fst row, total_amount (snd row), status (snd row)))
    (orders (submit (Samples.net_ok Samples.rows_ok) Samples.form
               defaultDeliveryCharges Samples.world))
  = [("order-1", (423 # 2)%Q, "pending")].
Proof. reflexivity. Qed.

(** C5.  For every order submitted with success, the inserted order items
    are one per validated cart line, in the order of the cart; each
    records the id of the new order, the product id and the quantity of
    its line, and the price of the line as the cart holds it at the
    submission, rounded to 2 decimals. *)
Theorem checkout_order_items {num : Type} `{!JsNumber num}
    (net : Network num) (formData : FormData)
    (deliveryCharges : DeliveryCharges num) (w : World num)
    (rows : list (ProductRow num)) (id : string) :
  passes_validation formData (cart w) rows = true →
  products_answer net = {| data := Some rows; error := None |} →
  orders_insert_answer net = inl id →
  nonempty id = true →
  order_items_insert_answer net = None →
  order_items (submit net formData deliveryCharges w)
  = order_items w
    ++ List.map
         (fun item =>
            {| order_id := id;
               order_item_product_id := item_id item;
               order_item_quantity := item_quantity item;
               order_item_price := num_toFixed2 (item_price item) |})
         (cart w).
Proof.
  intros Hpass Hans Hid Hne Hitems.
  destruct (passes_validation_reaches_insert _ _ _ Hpass)
    as (Hreach & Hall & Hcart).
  rewrite (submit_order_stored net formData deliveryCharges w rows id)
    by assumption.
  rewrite Hall, Hitems.
  destruct (cart w) as [| line lines]; [congruence |]. reflexivity.
Qed.

Lemma checkout_order_items_witness :
  passes_validation Samples.form (cart Samples.world) Samples.rows_ok = true
  ∧ products_answer (Samples.net_ok Samples.rows_ok)
    = {| data := Some Samples.rows_ok; error := None |}
  ∧ orders_insert_answer (Samples.net_ok Samples.rows_ok) = inl "order-1"
  ∧ nonempty "order-1" = true
  ∧ order_items_insert_answer (Samples.net_ok Samples.rows_ok) = None
  ∧ order_items (submit (Samples.net_ok Samples.rows_ok) Samples.form
                   defaultDeliveryCharges Samples.world)
    = order_items Samples.world
      ++ List.map
           (fun item =>
              {| order_id := "order-1";
                 order_item_product_id := item_id item;
                 order_item_quantity := item_quantity item;
                 order_item_price := num_toFixed2 (item_price item) |})
           (cart Samples.world).
Proof.
  repeat (split; [reflexivity |]).
  apply (checkout_order_items (Samples.net_ok Samples.rows_ok) Samples.form
           defaultDeliveryCharges Samples.world Samples.rows_ok "order-1");
    reflexivity.
Defined.

(** The line of B holds the price 19.999 and the live row says 25; the
    order item stores 20.00, the rounded price of the line. *)
Example checkout_order_items_prices :
  List.map (fun row => (order_item_product_id row, order_item_quantity row,
                        order_item_price row))
    (order_items (submit (Samples.net_ok Samples.rows_ok) Samples.form
                    defaultDeliveryCharges Samples.world))
  = [("a", 3, (21 # 2)%Q); ("b", 3, 20%Q)].
Proof. reflexivity. Qed.

(** C3, as stated, fails: the order is stored, the insert of the order
    items is refused, and the compensating delete does not take effect;
    the page ignores the outcome of the delete, so the order row stays
    with no order item. *)
Lemma checkout_partial_order_remains :
  List.map fst
    (orders (submit (Samples.net_items_refused false) Samples.form
               defaultDeliveryCharges Samples.world))
  = ["order-1"]
  ∧ order_items (submit (Samples.net_items_refused false) Samples.form
                   defaultDeliveryCharges Samples.world)
    = [].
Proof. split; reflexivity. Qed.

(** C3, amended.  For every submission in which the insert of the order
    succeeds and then the insert of the order items fails, or no valid
    order item results, the page sends a compensating delete of the new
    order row and does not look at its outcome: when the delete takes
    effect, no row with the new id remains (and the table is as before if
    the id was new), otherwise the row stays; in both cases no order item
    is stored, the cart store is unchanged, and the failure is
    reported. *)
Theorem checkout_items_insert_fails {num : Type} `{!JsNumber num}
    (net : Network num) (formData : FormData)
    (deliveryCharges : DeliveryCharges num) (w : World num)
    (rows : list (ProductRow num)) (id : string) :
  reaches_insert formData (cart w) rows = true →
  products_answer net = {| data := Some rows; error := None |} →
  orders_insert_answer net = inl id →
  nonempty id = true →
  List.filter (fetched rows) (cart w) = []
  ∨ order_items_insert_answer net ≠ None →
  let w' := submit net formData deliveryCharges w in
  let order := order_of (cart w) formData deliveryCharges in
  (if orders_delete_applies net
   then ¬ In id (List.map fst (orders w'))
        ∧ (¬ In id (List.map fst (orders w)) → orders w' = orders w)
   else orders w' = orders w ++ [(id, order)])
  ∧ order_items w' = order_items w
  ∧ cart w' = cart w
  ∧ (∃ m, toasts w' = toasts w ++ [toast_error m])
  ∧ orderId w' = orderId w
  ∧ orderConfirmed w' = orderConfirmed w
  ∧ loading w' = false.
Proof.
  intros Hreach Hans Hid Hne Hfails w' order. subst w'.
  rewrite (submit_order_stored net formData deliveryCharges w rows id)
    by assumption.
  assert (Hfailed : ∀ m,
    let w' :=
      {| cart := cart w;
         orders :=
           if orders_delete_applies net
           then List.filter (fun row => negb (String.eqb (fst row) id))
                  (orders w ++ [(id, order)])
           else orders w ++ [(id, order)];
         order_items := order_items w; loading := false;
         orderId := orderId w; orderConfirmed := orderConfirmed w;
         toasts := toasts w ++ [toast_error m] |} in
    (if orders_delete_applies net
     then ¬ In id (List.map fst (orders w'))
          ∧ (¬ In id (List.map fst (orders w)) → orders w' = orders w)
     else orders w' = orders w ++ [(id, order)])
    ∧ order_items w' = order_items w
    ∧ cart w' = cart w
    ∧ (∃ m, toasts w' = toasts w ++ [toast_error m])
    ∧ orderId w' = orderId w
    ∧ orderConfirmed w' = orderConfirmed w
    ∧ loading w' = false).
  { intros m. cbn. split; [| repeat split; eauto].
    destruct (orders_delete_applies net); [| reflexivity].
    apply orders_after_delete. }
  destruct (List.map (order_item_of id) (List.filter (fetched rows) (cart w)))
    as [| line lines] eqn:Hlines; [apply Hfailed |].
  destruct (order_items_insert_answer net) as [e |]; [apply Hfailed |].
  destruct Hfails as [Hnone | Hsome]; [| congruence].
  rewrite Hnone in Hlines. discriminate.
Qed.

Lemma checkout_items_insert_fails_witness :
  reaches_insert Samples.form (cart Samples.world) Samples.rows_ok = true
  ∧ products_answer (Samples.net_items_refused true)
    = {| data := Some Samples.rows_ok; error := None |}
  ∧ orders_insert_answer (Samples.net_items_refused true) = inl "order-1"
  ∧ nonempty "order-1" = true
  ∧ (List.filter (fetched Samples.rows_ok) (cart Samples.world) = []
     ∨ order_items_insert_answer (Samples.net_items_refused true) ≠ None)
  ∧ let w' := submit (Samples.net_items_refused true) Samples.form
                defaultDeliveryCharges Samples.world in
    let order :=
      order_of (cart Samples.world) Samples.form defaultDeliveryCharges in
    (if orders_delete_applies (Samples.net_items_refused true)
     then ¬ In "order-1" (List.map fst (orders w'))
          ∧ (¬ In "order-1" (List.map fst (orders Samples.world))
             → orders w' = orders Samples.world)
     else orders w' = orders Samples.world ++ [("order-1", order)])
    ∧ order_items w' = order_items Samples.world
    ∧ cart w' = cart Samples.world
    ∧ (∃ m, toasts w' = toasts Samples.world ++ [toast_error m])
    ∧ orderId w' = orderId Samples.world
    ∧ orderConfirmed w' = orderConfirmed Samples.world
    ∧ loading w' = false.
Proof.
  assert (Hfails :
    List.filter (fetched Samples.rows_ok) (cart Samples.world) = []
    ∨ order_items_insert_answer (Samples.net_items_refused true) ≠ None)
    by (right; discriminate).
  repeat (split; [first [reflexivity | exact Hfails] |]).
  apply (checkout_items_insert_fails (Samples.net_items_refused true)
           Samples.form defaultDeliveryCharges Samples.world Samples.rows_ok
           "order-1");
    first [reflexivity | exact Hfails].
Defined.

(** The scenario of the specification, with a delete that takes effect:
    no order row remains, the cart is untouched, the rejection is
    reported. *)
Example checkout_compensating_delete :
  let w' := submit (Samples.net_items_refused true) Samples.form
              defaultDeliveryCharges Samples.world in
  orders w' = [] ∧ order_items w' = [] ∧ cart w' = cart Samples.world
  ∧ toasts w' = [toast_error (BackendMessage "timeout")].
Proof. repeat split. Qed.

Section CheckoutUnavailable.

Context {num : Type} `{!JsNumber num}.
Implicit Types (net : Network num) (formData : FormData)
  (deliveryCharges : DeliveryCharges num) (items : list (CartItem num))
  (rows : list (ProductRow num)) (w : World num).

(** *** Removing the missing lines from the store *)

Lemma forEach_removeItem (missing : list (CartItem num)) w :
  forEach missing (fun item => cart_removeItem (item_id item)) w
  = (Normal tt, with_cart (remove_all missing) w).
Proof.
  revert w. induction missing as [| item missing IH]; intros w.
  - destruct w; reflexivity.
  - cbn [forEach]. unfold mbind, M_bind, bind.
    unfold cart_removeItem at 1, modify at 1. rewrite IH.
    destruct w; reflexivity.
Qed.

Lemma filter_twice {B : Type} (f g : B → bool) (l : list B) :
  List.filter f (List.filter g l) = List.filter (λ x, g x && f x) l.
Proof.
  induction l as [| x l IH]; [reflexivity |].
  cbn [List.filter]. destruct (g x); cbn [andb List.filter];
    rewrite IH; reflexivity.
Qed.

Lemma remove_all_filter (missing items : list (CartItem num)) :
  remove_all missing items
  = List.filter
      (fun item =>
         negb (bool_decide (item_id item ∈ List.map item_id missing)))
      items.
Proof.
  unfold remove_all. revert items.
  induction missing as [| m missing IH]; intros items; cbn [fold_left].
  - symmetry. apply filter_all, forallb_forall. intros item _.
    apply negb_true_iff, bool_decide_eq_false. cbn. apply not_elem_of_nil.
  - rewrite IH. unfold removeItem. rewrite filter_twice.
    apply filter_ext. intros item. cbn [List.map].
    destruct (String.eqb_spec (item_id item) (item_id m)) as [Heq | Hne];
      cbn [negb andb].
    + symmetry. apply negb_false_iff, bool_decide_eq_true.
      rewrite Heq. apply list_elem_of_here.
    + f_equal. apply bool_decide_ext. rewrite elem_of_cons. tauto.
Qed.

(** Among the lines of the cart, the ids of the missing lines are the
    ids that were not fetched. *)
Lemma remove_all_missing items rows :
  remove_all (missing_lines rows items) items
  = List.filter (fetched rows) items.
Proof.
  rewrite remove_all_filter. apply filter_ext_in. intros item Hin.
  destruct (fetched rows item) eqn:Hf.
  - apply negb_true_iff, bool_decide_eq_false. intros Hmem.
    apply list_elem_of_In, in_map_iff in Hmem as (m & Hid & Hm).
    apply filter_In in Hm as [_ Hm]. apply negb_true_iff in Hm.
    unfold fetched in Hf, Hm. rewrite Hid in Hm. congruence.
  - apply negb_false_iff, bool_decide_eq_true.
    apply list_elem_of_In, in_map. apply filter_In. split; [assumption |].
    rewrite Hf. reflexivity.
Qed.

(** *** Counting the fetched rows *)

Lemma size_list_to_set_le (l : list string) :
  (size (list_to_set l : gset string) ≤ length l)%nat.
Proof.
  induction l as [| x l IH]; cbn [list_to_set length].
  - rewrite size_empty. lia.
  - rewrite size_union_alt, size_singleton.
    assert (Hle : list_to_set l ∖ {[x]} ⊆ (list_to_set l : gset string))
      by apply subseteq_difference_l, reflexivity.
    apply subseteq_size in Hle. lia.
Qed.

Lemma size_differs_some_missing items rows :
  answers_the_cart rows items = true →
  length rows ≠ size (list_to_set (List.map item_id items) : gset string) →
  Nat.eqb (length rows) (length items) = false
  ∧ Nat.ltb 0 (length (missing_lines rows items)) = true.
Proof.
  intros Hanswer Hsize. unfold answers_the_cart in Hanswer.
  apply andb_prop in Hanswer as [Hnodup Hsub].
  apply bool_decide_eq_true in Hnodup. rewrite forallb_forall in Hsub.
  set (fetched_ids := list_to_set (List.map product_id rows) : gset string).
  set (cart_ids := list_to_set (List.map item_id items) : gset string)
    in *.
  assert (Hrows : size fetched_ids = length rows).
  { unfold fetched_ids. rewrite size_list_to_set by assumption.
    apply length_map. }
  assert (Hincl : fetched_ids ⊆ cart_ids).
  { intros id Hid. apply elem_of_list_to_set in Hid.
    apply elem_of_list_to_set.
    apply list_elem_of_In, in_map_iff in Hid as (row & <- & Hrow).
    apply Hsub in Hrow. apply bool_decide_eq_true in Hrow. exact Hrow. }
  pose proof (subseteq_size _ _ Hincl) as Hle.
  pose proof (size_list_to_set_le (List.map item_id items)) as Hcart.
  fold cart_ids in Hcart. rewrite length_map in Hcart.
  split.
  - apply Nat.eqb_neq. lia.
  - apply Nat.ltb_lt.
    destruct (missing_lines rows items) as [| m rest] eqn:Hmiss;
      [| cbn; lia].
    exfalso. apply Hsize. rewrite <- Hrows. f_equal.
    apply set_eq. intros id. split; [apply Hincl |].
    intros Hid. apply elem_of_list_to_set in Hid.
    apply list_elem_of_In, in_map_iff in Hid as (item & <- & Hitem).
    apply elem_of_list_to_set.
    destruct (fetched rows item) eqn:Hf.
    + unfold fetched in Hf. apply bool_decide_eq_true in Hf. exact Hf.
    + assert (In item (missing_lines rows items)) as Hin.
      { apply filter_In. split; [assumption |]. rewrite Hf. reflexivity. }
      rewrite Hmiss in Hin. destruct Hin.
Qed.

End CheckoutUnavailable.

(** C2.  For every submission in which the live fetch answers with a set
    of rows whose size differs from the size of the set of product ids of
    the cart, [removeItem] is called for every line whose product is
    missing from the fetch, so that these lines leave the cart store and
    the other lines stay, the checkout rejects with the
    products-unavailable error that lists the names of the missing lines,
    of which there is at least one, and no order row is inserted.  The
    rows are those of a select on the primary key restricted to the ids
    of the cart. *)
Theorem checkout_products_unavailable {num : Type} `{!JsNumber num}
    (net : Network num) (formData : FormData)
    (deliveryCharges : DeliveryCharges num) (w : World num)
    (rows : list (ProductRow num)) :
  cart_valid (cart w) = true →
  contact_valid formData = true →
  products_answer net = {| data := Some rows; error := None |} →
  answers_the_cart rows (cart w) = true →
  length rows
  ≠ size (list_to_set (List.map item_id (cart w)) : gset string) →
  let w' := submit net formData deliveryCharges w in
  cart w' = remove_all (missing_lines rows (cart w)) (cart w)
  ∧ cart w' = List.filter (fetched rows) (cart w)
  ∧ toasts w'
    = toasts w
      ++ [toast_error
            (ProductsUnavailable
               (List.map item_name (missing_lines rows (cart w))))]
  ∧ missing_lines rows (cart w) ≠ []
  ∧ orders w' = orders w
  ∧ order_items w' = order_items w
  ∧ orderId w' = orderId w
  ∧ orderConfirmed w' = orderConfirmed w
  ∧ loading w' = false.
Proof.
  intros Hcart Hform Hans Hrows Hsize w'. subst w'.
  destruct (size_differs_some_missing _ _ Hrows Hsize) as [Hlen Hmiss].
  unfold submit. rewrite handleSubmit_validated by assumption.
  unfold_steps. rewrite Hans. cbn [data error].
  rewrite missingItems_missing_lines, Hlen, Hmiss. cbn [negb].
  rewrite forEach_removeItem. cbn.
  split; [reflexivity |].
  rewrite remove_all_missing. repeat split.
  intros Hnil. rewrite Hnil in Hmiss. discriminate.
Qed.

Lemma checkout_products_unavailable_witness :
  cart_valid (cart Samples.world) = true
  ∧ contact_valid Samples.form = true
  ∧ products_answer (Samples.net_ok Samples.rows_A_only)
    = {| data := Some Samples.rows_A_only; error := None |}
  ∧ answers_the_cart Samples.rows_A_only (cart Samples.world) = true
  ∧ length Samples.rows_A_only
    ≠ size (list_to_set (List.map item_id (cart Samples.world))
            : gset string)
  ∧ let w' := submit (Samples.net_ok Samples.rows_A_only) Samples.form
                defaultDeliveryCharges Samples.world in
    cart w'
    = remove_all (missing_lines Samples.rows_A_only (cart Samples.world))
        (cart Samples.world)
    ∧ cart w' = List.filter (fetched Samples.rows_A_only) (cart Samples.world)
    ∧ toasts w'
      = toasts Samples.world
        ++ [toast_error
              (ProductsUnavailable
                 (List.map item_name
                    (missing_lines Samples.rows_A_only
                       (cart Samples.world))))]
    ∧ missing_lines Samples.rows_A_only (cart Samples.world) ≠ []
    ∧ orders w' = orders Samples.world
    ∧ order_items w' = order_items Samples.world
    ∧ orderId w' = orderId Samples.world
    ∧ orderConfirmed w' = orderConfirmed Samples.world
    ∧ loading w' = false.
Proof.
  assert (Hsize : length Samples.rows_A_only
                  ≠ size (list_to_set (List.map item_id (cart Samples.world))
                          : gset string))
    by (vm_compute; lia).
  repeat (split; [first [reflexivity | exact Hsize] |]).
  apply (checkout_products_unavailable (Samples.net_ok Samples.rows_A_only)
           Samples.form defaultDeliveryCharges Samples.world
           Samples.rows_A_only);
    first [reflexivity | exact Hsize].
Defined.

(** The scenario of the specification: B is no longer in the catalog; the
    rejection names B, and the line of B leaves the cart store. *)
Example checkout_products_unavailable_removes_B :
  let w' := submit (Samples.net_ok Samples.rows_A_only) Samples.form
              defaultDeliveryCharges Samples.world in
  cart w' = [Samples.line_A]
  ∧ toasts w' = [toast_error (ProductsUnavailable ["B"])]
  ∧ orders w' = [].
Proof. repeat split. Qed.

(** ** The branch of zero valid order items *)

Section NoValidProducts.

Context {num : Type} `{!JsNumber num}.
Implicit Types (net : Network num) (formData : FormData)
  (deliveryCharges : DeliveryCharges num) (items : list (CartItem num))
  (rows : list (ProductRow num)) (w : World num).

(** With a row for every line, no path of the handler reports that no
    valid product was found. *)
Lemma every_id_fetched_never_no_valid net formData deliveryCharges w rows :
  data (products_answer net) = Some rows →
  every_id_fetched (cart w) rows = true →
  ¬ In (toast_error NoValidProducts) (toasts w) →
  ¬ In (toast_error NoValidProducts)
       (toasts (submit net formData deliveryCharges w)).
Proof.
  intros Hdata Hall Hold. unfold submit, handleSubmit.
  destruct (Nat.eqb (length (cart w)) 0) eqn:Hlen;
    [unfold_steps; new_toast_differs Hold |].
  destruct (existsb invalidItem (cart w));
    [unfold_steps; new_toast_differs Hold |].
  destruct (blank (form_name formData));
    [unfold_steps; new_toast_differs Hold |].
  destruct (blank (form_phone formData));
    [unfold_steps; new_toast_differs Hold |].
  destruct (negb (phoneRegex_test (trim (form_phone formData))));
    [unfold_steps; new_toast_differs Hold |].
  destruct (blank (form_address formData));
    [unfold_steps; new_toast_differs Hold |].
  unfold_steps.
  destruct (products_answer net) as [existing err]. cbn in Hdata.
  subst existing. cbn [data error].
  destruct err as [err |]; [new_toast_differs Hold |].
  rewrite missingItems_missing_lines, every_id_fetched_none_missing
    by assumption.
  assert (Hrows : ∀ id, Nat.eqb (length (orderItems id (cart w) (Some rows))) 0
                        = false).
  { intros id. rewrite orderItems_every_line, length_map by assumption.
    exact Hlen. }
  destruct (negb (Nat.eqb (length rows) (length (cart w)))); cbn;
    (destruct (outOfStockItems (cart w) (Some rows));
       [| new_toast_differs Hold]);
    cbn;
    (destruct (orders_insert_answer net) as [id | err];
       [| new_toast_differs Hold]);
    cbn;
    (destruct (nonempty id) eqn:Hid; [| new_toast_differs Hold]);
    cbn; rewrite Hrows;
    destruct (order_items_insert_answer net) as [err |];
    destruct (orders_delete_applies net);
    new_toast_differs Hold.
Qed.

(** A fetch that answers the cart with as many rows as the cart has
    lines holds a row for every line. *)
Lemma same_length_every_id_fetched items rows :
  answers_the_cart rows items = true →
  length rows = length items →
  every_id_fetched items rows = true.
Proof.
  intros Hanswer Hlen.
  destruct (every_id_fetched items rows) eqn:Hall; [reflexivity |].
  exfalso.
  assert (Hsize : length rows
                  ≠ size (list_to_set (List.map item_id items) : gset string)).
  { intros Hsize.
    assert (Hmissing : missing_lines rows items ≠ []).
    { intros Hnil. unfold every_id_fetched in Hall.
      assert (forallb (fetched rows) items = true) as Hfetched; [| congruence].
      apply forallb_forall. intros item Hin.
      destruct (fetched rows item) eqn:Hf; [reflexivity |].
      assert (In item (missing_lines rows items)) as Hm.
      { apply filter_In. split; [assumption |]. rewrite Hf. reflexivity. }
      rewrite Hnil in Hm. destruct Hm. }
    unfold answers_the_cart in Hanswer.
    apply andb_prop in Hanswer as [Hnodup Hsub].
    apply bool_decide_eq_true in Hnodup. rewrite forallb_forall in Hsub.
    assert (Hincl : (list_to_set (List.map product_id rows) : gset string)
                    ⊆ list_to_set (List.map item_id items)).
    { intros id Hid. apply elem_of_list_to_set in Hid.
      apply elem_of_list_to_set.
      apply list_elem_of_In, in_map_iff in Hid as (row & <- & Hrow).
      apply Hsub in Hrow. apply bool_decide_eq_true in Hrow. exact Hrow. }
    apply set_subseteq_size_eq in Hincl.
    - apply Hmissing. apply filter_none. apply forallb_forall.
      intros item Hin. rewrite negb_involutive. unfold fetched.
      apply bool_decide_eq_true.
      apply (elem_of_list_to_set (C := gset string)). rewrite Hincl.
      apply elem_of_list_to_set, list_elem_of_In, in_map, Hin.
    - rewrite (size_list_to_set (List.map product_id rows)) by assumption.
      rewrite length_map. lia. }
  destruct (size_differs_some_missing items rows Hanswer Hsize) as [Hne _].
  apply Nat.eqb_neq in Hne. contradiction.
Qed.

(** Whatever the cart, a fetch that answers the cart never leads to the
    report that no valid product was found: a missing line is rejected
    before the order is inserted. *)
Corollary answered_cart_never_no_valid net formData deliveryCharges w rows :
  data (products_answer net) = Some rows →
  answers_the_cart rows (cart w) = true →
  ¬ In (toast_error NoValidProducts) (toasts w) →
  ¬ In (toast_error NoValidProducts)
       (toasts (submit net formData deliveryCharges w)).
Proof.
  intros Hdata Hanswer Hold.
  destruct (every_id_fetched (cart w) rows) eqn:Hall;
    [eapply every_id_fetched_never_no_valid; eassumption |].
  assert (Hlen : Nat.eqb (length rows) (length (cart w)) = false).
  { apply Nat.eqb_neq. intros Hlen.
    rewrite (same_length_every_id_fetched _ _ Hanswer Hlen) in Hall.
    discriminate. }
  assert (Hmissing : Nat.ltb 0 (length (missing_lines rows (cart w))) = true).
  { destruct (missing_lines rows (cart w)) as [| m rest] eqn:Hmiss;
      [| reflexivity].
    unfold every_id_fetched in Hall.
    assert (forallb (fetched rows) (cart w) = true) as Hf; [| congruence].
    apply forallb_forall. intros item Hin.
    destruct (fetched rows item) eqn:Hf; [reflexivity |].
    assert (In item (missing_lines rows (cart w))) as Hm.
    { apply filter_In. split; [assumption |]. rewrite Hf. reflexivity. }
    rewrite Hmiss in Hm. destruct Hm. }
  unfold submit, handleSubmit.
  destruct (Nat.eqb (length (cart w)) 0);
    [unfold_steps; new_toast_differs Hold |].
  destruct (existsb invalidItem (cart w));
    [unfold_steps; new_toast_differs Hold |].
  destruct (blank (form_name formData));
    [unfold_steps; new_toast_differs Hold |].
  destruct (blank (form_phone formData));
    [unfold_steps; new_toast_differs Hold |].
  destruct (negb (phoneRegex_test (trim (form_phone formData))));
    [unfold_steps; new_toast_differs Hold |].
  destruct (blank (form_address formData));
    [unfold_steps; new_toast_differs Hold |].
  unfold_steps.
  destruct (products_answer net) as [existing err]. cbn in Hdata.
  subst existing. cbn [data error].
  destruct err as [err |]; [new_toast_differs Hold |].
  rewrite missingItems_missing_lines, Hlen, Hmissing. cbn [negb].
  rewrite forEach_removeItem. new_toast_differs Hold.
Qed.

End NoValidProducts.

(** C10.  For every submission in which the live fetch holds a row for
    every line of the cart, the order items built by filtering the lines
    against the fetched rows are one per line, so they are as many as the
    lines and not empty for a cart that is not empty; and the submission
    never takes the branch of zero valid order items: it never reports
    that no valid product was found. *)
Theorem order_items_one_per_line {num : Type} `{!JsNumber num}
    (net : Network num) (formData : FormData)
    (deliveryCharges : DeliveryCharges num) (w : World num)
    (rows : list (ProductRow num)) :
  data (products_answer net) = Some rows →
  every_id_fetched (cart w) rows = true →
  (∀ id, orderItems id (cart w) (Some rows)
         = List.map (order_item_of id) (cart w))
  ∧ (∀ id, length (orderItems id (cart w) (Some rows)) = length (cart w))
  ∧ (cart w ≠ [] → ∀ id, orderItems id (cart w) (Some rows) ≠ [])
  ∧ (¬ In (toast_error NoValidProducts) (toasts w) →
     ¬ In (toast_error NoValidProducts)
          (toasts (submit net formData deliveryCharges w))).
Proof.
  intros Hdata Hall.
  assert (Hlines : ∀ id, orderItems id (cart w) (Some rows)
                         = List.map (order_item_of id) (cart w))
    by (intros id; apply orderItems_every_line, Hall).
  split; [exact Hlines |].
  split; [intros id; rewrite Hlines; apply length_map |].
  split.
  - intros Hne id. rewrite Hlines.
    destruct (cart w); [congruence | discriminate].
  - apply every_id_fetched_never_no_valid with (rows := rows); assumption.
Qed.

Lemma order_items_one_per_line_witness :
  data (products_answer (Samples.net_ok Samples.rows_ok))
  = Some Samples.rows_ok
  ∧ every_id_fetched (cart Samples.world) Samples.rows_ok = true
  ∧ (∀ id, orderItems id (cart Samples.world) (Some Samples.rows_ok)
           = List.map (order_item_of id) (cart Samples.world))
  ∧ (∀ id, length (orderItems id (cart Samples.world)
                     (Some Samples.rows_ok))
           = length (cart Samples.world))
  ∧ (cart Samples.world ≠ [] →
     ∀ id, orderItems id (cart Samples.world) (Some Samples.rows_ok) ≠ [])
  ∧ (¬ In (toast_error NoValidProducts) (toasts Samples.world) →
     ¬ In (toast_error NoValidProducts)
          (toasts (submit (Samples.net_ok Samples.rows_ok) Samples.form
                     defaultDeliveryCharges Samples.world))).
Proof.
  repeat (split; [reflexivity |]).
  apply (order_items_one_per_line (Samples.net_ok Samples.rows_ok)
           Samples.form defaultDeliveryCharges Samples.world
           Samples.rows_ok);
    reflexivity.
Defined.

(** Only a fetch that does not answer the cart reaches the branch: with
    as many rows as lines, all of a product that is not in the cart, the
    order is inserted, no order item results, and the order is deleted
    again. *)
Example foreign_rows_reach_zero_items :
  answers_the_cart Samples.rows_foreign (cart Samples.world) = false
  ∧ let w' := submit (Samples.net_ok Samples.rows_foreign) Samples.form
                defaultDeliveryCharges Samples.world in
    toasts w' = [toast_error NoValidProducts]
    ∧ orders w' = [] ∧ order_items w' = []
    ∧ cart w' = cart Samples.world.
Proof. repeat split. Qed.

(** * The checkout, path by path *)

(** Splits a goal on [submit] into the ends of [handleSubmit]: the six
    early returns, the error of the product check, the unavailable
    products, the stock, the refused order, the missing id, and the
    outcomes of the insert of the order items.  [leaf] closes each end; the
    conditions that lead there are in the context ([Hlen], [Hinvalid],
    [Hname], [Hphone], [Hpattern], [Haddress], [Hanswer], [Hcount],
    [Hmissing], [Hstock], [Hinsert], [Hid], [Hlines], [Hitems],
    [Hdelete]). *)
Ltac submit_paths net formData w leaf :=
  let close := first [solve [leaf] | fail 100 "an end of the handler is open"] in
  unfold submit, handleSubmit;
  destruct (Nat.eqb (length (cart w)) 0) eqn:Hlen;
    [unfold_steps; close |];
  destruct (existsb invalidItem (cart w)) eqn:Hinvalid;
    [unfold_steps; close |];
  destruct (blank (form_name formData)) eqn:Hname;
    [unfold_steps; close |];
  destruct (blank (form_phone formData)) eqn:Hphone;
    [unfold_steps; close |];
  destruct (negb (phoneRegex_test (trim (form_phone formData)))) eqn:Hpattern;
    [unfold_steps; close |];
  destruct (blank (form_address formData)) eqn:Haddress;
    [unfold_steps; close |];
  unfold_steps;
  destruct (products_answer net) as [existing err] eqn:Hanswer;
  cbn [data error];
  destruct err as [err |]; [close |];
  (destruct existing as [rows |];
   [destruct (Nat.eqb (length rows) (length (cart w))) eqn:Hcount |];
   cbn [negb]);
  (lazymatch goal with
   | |- context [Nat.ltb 0 (length (missingItems ?items ?e))] =>
       destruct (Nat.ltb 0 (length (missingItems items e))) eqn:Hmissing;
       [rewrite forEach_removeItem; close |]
   | |- _ => idtac
   end);
  (lazymatch goal with
   | |- context [outOfStockItems ?items ?e] =>
       destruct (outOfStockItems items e) as [| short shorts] eqn:Hstock
   end;
   cbn [length Nat.ltb Nat.leb]; [| close]);
  (destruct (orders_insert_answer net) as [id | err] eqn:Hinsert;
   cbn [data error]; [| close]);
  (lazymatch goal with
   | |- context [nonempty ?text] => destruct (nonempty text) eqn:Hid
   end;
   cbn [negb]; [| close]);
  (lazymatch goal with
   | |- context [orderItems ?id ?items ?e] =>
       destruct (orderItems id items e) as [| line lines] eqn:Hlines
   end;
   cbn [length Nat.eqb]);
  destruct (order_items_insert_answer net) as [err |] eqn:Hitems;
  destruct (orders_delete_applies net) eqn:Hdelete;
  close.

Section CheckoutPaths.

Context {num : Type} `{!JsNumber num}.
Implicit Types (net : Network num) (formData : FormData)
  (deliveryCharges : DeliveryCharges num) (items : list (CartItem num))
  (rows : list (ProductRow num)) (w : World num).

Lemma forallb_negb_existsb {B : Type} (f : B → bool) (l : list B) :
  forallb (λ x, negb (f x)) l = negb (existsb f l).
Proof.
  induction l as [| x l IH]; [reflexivity |].
  cbn [forallb existsb]. rewrite IH, negb_orb. reflexivity.
Qed.

(** The validity of the cart and of the contact data is the negation of
    the six conditions the handler tests in turn. *)
Lemma valid_checks formData items :
  cart_valid items && contact_valid formData
  = negb (Nat.eqb (length items) 0 || existsb invalidItem items
          || blank (form_name formData) || blank (form_phone formData)
          || negb (phoneRegex_test (trim (form_phone formData)))
          || blank (form_address formData)).
Proof.
  assert (Hcart : cart_valid items
                  = negb (Nat.eqb (length items) 0
                          || existsb invalidItem items)).
  { rewrite negb_orb, <- forallb_negb_existsb.
    rewrite (forallb_pointwise _ line_ok)
      by (intros item; rewrite invalidItem_line_ok; apply negb_involutive).
    destruct items; reflexivity. }
  rewrite Hcart. unfold contact_valid.
  destruct (Nat.eqb (length items) 0), (existsb invalidItem items),
    (blank (form_name formData)), (blank (form_phone formData)),
    (phoneRegex_test (trim (form_phone formData))),
    (blank (form_address formData)); reflexivity.
Qed.

Lemma orderItems_order_id id items existing :
  Forall (λ row : OrderItemRow num, order_id row = id)
    (orderItems id items existing).
Proof.
  unfold orderItems. apply List.Forall_forall. intros row Hin.
  apply in_map_iff in Hin as (item & <- & _). reflexivity.
Qed.

(** A line that is in order has a positive quantity. *)
Lemma valid_line_quantity items (item : CartItem num) :
  existsb invalidItem items = false → In item items →
  0 < item_quantity item.
Proof.
  intros Hnone Hin.
  destruct (invalidItem item) eqn:Hitem.
  - assert (existsb invalidItem items = true) as Hex; [| congruence].
    apply existsb_exists. eauto.
  - unfold invalidItem in Hitem.
    apply orb_false_elim in Hitem as [_ Hq]. lia.
Qed.

(** After a stock check that reports nothing, a line that becomes an order
    item has a fetched row of its product whose stock covers it. *)
Lemma stock_covers items existing (item : CartItem num) :
  outOfStockItems items existing = [] → In item items →
  someProduct existing (item_id item) = true →
  ∃ rows product,
    existing = Some rows ∧ In product rows
    ∧ product_id product = item_id item
    ∧ item_quantity item ≤ product_stock product.
Proof.
  intros Hstock Hin Hsome.
  destruct existing as [rows |]; [| discriminate].
  exists rows. unfold outOfStockItems in Hstock.
  assert (Hitem :
    match findProduct (Some rows) (item_id item) with
    | Some product =>
        if product_stock product <? item_quantity item
        then [(product_name product, product_stock product)]
        else []
    | None => []
    end = []).
  { clear Hsome. induction items as [| x items IH]; [destruct Hin |].
    cbn [flat_map] in Hstock. apply app_eq_nil in Hstock as [Hx Hrest].
    destruct Hin as [-> | Hin]; [exact Hx | auto]. }
  cbn [findProduct someProduct] in Hitem, Hsome.
  destruct (List.find _ rows) as [product |] eqn:Hfind.
  - apply find_some in Hfind as [Hrow Hid]. apply String.eqb_eq in Hid.
    exists product. repeat split; [assumption .. |].
    destruct (product_stock product <? item_quantity item) eqn:Hlt;
      [discriminate | lia].
  - apply existsb_exists in Hsome as (product & Hrow & Hid).
    apply (find_none _ _ Hfind) in Hrow. congruence.
Qed.


Lemma remove_all_sublist (missing items : list (CartItem num)) :
  sublist (remove_all missing items) items.
Proof.
  revert items. induction missing as [| item missing IH]; intros items.
  - reflexivity.
  - cbn [remove_all fold_left].
    etransitivity; [apply IH |]. unfold removeItem.
    induction items as [| x items IHi]; [constructor |].
    cbn [List.filter].
    destruct (negb (String.eqb (item_id x) (item_id item)));
      [apply sublist_skip | apply sublist_cons]; assumption.
Qed.

End CheckoutPaths.

(** X1.  Every run of the checkout handler tells the user exactly one
    thing: whatever the cart, the form and the answers of the backend, one
    toast is added to those shown before. *)
Theorem submit_shows_one_toast {num : Type} `{!JsNumber num}
    (net : Network num) (formData : FormData)
    (deliveryCharges : DeliveryCharges num) (w : World num) :
  ∃ t, toasts (submit net formData deliveryCharges w) = toasts w ++ [t].
Proof.
  submit_paths net formData w ltac:(cbn; eexists; reflexivity).
Qed.

(** X2.  A submission whose cart or contact data is not valid changes the
    cart, the two tables and the state of the page by one error toast,
    which is one of the six validation messages, and by nothing else,
    whatever the backend would answer. *)
Theorem submit_invalid_only_toast {num : Type} `{!JsNumber num}
    (net : Network num) (formData : FormData)
    (deliveryCharges : DeliveryCharges num) (w : World num) :
  cart_valid (cart w) && contact_valid formData = false →
  ∃ m, In m [CartEmpty; InvalidCartItem; NameRequired; PhoneRequired;
             PhoneInvalid; AddressRequired]
       ∧ submit net formData deliveryCharges w
         = with_toast (toast_error m) w.
Proof.
  rewrite valid_checks. unfold submit, handleSubmit.
  destruct (Nat.eqb (length (cart w)) 0);
    [intros _; exists CartEmpty; cbn; auto |].
  destruct (existsb invalidItem (cart w));
    [intros _; exists InvalidCartItem; cbn; auto |].
  destruct (blank (form_name formData));
    [intros _; exists NameRequired; cbn; auto |].
  destruct (blank (form_phone formData));
    [intros _; exists PhoneRequired; cbn; auto 6 |].
  destruct (negb (phoneRegex_test (trim (form_phone formData))));
    [intros _; exists PhoneInvalid; cbn; auto 7 |].
  destruct (blank (form_address formData));
    [intros _; exists AddressRequired; cbn; auto 8 |].
  discriminate.
Qed.

Lemma submit_invalid_only_toast_witness :
  cart_valid (cart Samples.world) && contact_valid Scenarios.form_bad_phone
  = false
  ∧ ∃ m, In m [CartEmpty; InvalidCartItem; NameRequired; PhoneRequired;
               PhoneInvalid; AddressRequired]
         ∧ submit (Samples.net_ok Samples.rows_ok) Scenarios.form_bad_phone
             defaultDeliveryCharges Samples.world
           = with_toast (toast_error m) Samples.world.
Proof.
  split; [reflexivity |].
  apply (submit_invalid_only_toast (Samples.net_ok Samples.rows_ok)
           Scenarios.form_bad_phone defaultDeliveryCharges Samples.world).
  reflexivity.
Defined.

(** X3.  The loading flag is never left on: after a submission with a
    valid cart and valid contact data the flag is off, however the run
    ended; a submission turned down by the validation does not touch
    it. *)
Theorem submit_loading_off {num : Type} `{!JsNumber num}
    (net : Network num) (formData : FormData)
    (deliveryCharges : DeliveryCharges num) (w : World num) :
  loading (submit net formData deliveryCharges w)
  = if cart_valid (cart w) && contact_valid formData then false
    else loading w.
Proof.
  rewrite valid_checks.
  submit_paths net formData w ltac:(reflexivity).
Qed.

(** X4.  A submission either succeeds as a whole or stores no order item:
    either the new toast is the success message, the cart is empty, the
    state of the page holds the confirmation flag and the id the backend
    gave, the order row is appended and at least one order item is
    stored, each under that id; or the new toast is an error, and no order
    item is stored and the confirmation flag and the order id of the state
    are as before. *)
Theorem submit_all_or_nothing {num : Type} `{!JsNumber num}
    (net : Network num) (formData : FormData)
    (deliveryCharges : DeliveryCharges num) (w : World num) :
  let w' := submit net formData deliveryCharges w in
  (∃ id line lines,
     orders_insert_answer net = inl id
     ∧ toasts w' = toasts w ++ [toast_success OrderPlaced]
     ∧ cart w' = [] ∧ orderConfirmed w' = true ∧ orderId w' = Some id
     ∧ orders w'
       = orders w ++ [(id, newOrder (cart w) formData deliveryCharges)]
     ∧ order_items w' = order_items w ++ line :: lines
     ∧ Forall (λ row, order_id row = id) (line :: lines))
  ∨ ((∃ m, toasts w' = toasts w ++ [toast_error m])
     ∧ order_items w' = order_items w
     ∧ orderConfirmed w' = orderConfirmed w
     ∧ orderId w' = orderId w).
Proof.
  cbv zeta.
  submit_paths net formData w
    ltac:(first
      [ right; cbn; split; [eexists; reflexivity | auto]
      | left; cbn;
        match goal with
        | Hlines : orderItems ?id _ ?e = ?line :: ?lines |- _ =>
            exists id, line, lines; repeat split;
            rewrite <- Hlines; apply orderItems_order_id
        end ]).
Qed.

(** X5.  The checkout never sells more than the stock it has just read:
    every order item that a submission adds has a positive quantity, and
    the fetched rows hold a row of its product whose stock is at least
    that quantity. *)
Theorem submit_never_oversells {num : Type} `{!JsNumber num}
    (net : Network num) (formData : FormData)
    (deliveryCharges : DeliveryCharges num) (w : World num)
    (row : OrderItemRow num) :
  In row (order_items (submit net formData deliveryCharges w)) →
  In row (order_items w)
  ∨ (0 < order_item_quantity row
     ∧ ∃ rows product,
         data (products_answer net) = Some rows ∧ In product rows
         ∧ product_id product = order_item_product_id row
         ∧ order_item_quantity row ≤ product_stock product).
Proof.
  revert row.
  submit_paths net formData w
    ltac:(first
      [ cbn; intros row Hrow; left; exact Hrow
      | cbn; intros row Hrow;
        apply in_app_or in Hrow as [Hold | Hnew]; [left; exact Hold |];
        right;
        match goal with
        | Hlines : orderItems _ _ _ = _ |- _ => rewrite <- Hlines in Hnew
        end;
        unfold orderItems in Hnew;
        apply in_map_iff in Hnew as (item & <- & Hitem);
        apply filter_In in Hitem as [Hitem Hfetched];
        cbn [order_item_quantity order_item_product_id];
        split;
        [ eapply valid_line_quantity; eassumption
        | eapply stock_covers; eassumption ] ]).
Qed.

Lemma submit_never_oversells_witness :
  In Scenarios.order_item_A
    (order_items (submit (Samples.net_ok Samples.rows_ok) Samples.form
                    defaultDeliveryCharges Samples.world))
  ∧ (In Scenarios.order_item_A (order_items Samples.world)
     ∨ (0 < order_item_quantity Scenarios.order_item_A
        ∧ ∃ rows product,
            data (products_answer (Samples.net_ok Samples.rows_ok))
            = Some rows
            ∧ In product rows
            ∧ product_id product
              = order_item_product_id Scenarios.order_item_A
            ∧ order_item_quantity Scenarios.order_item_A
              ≤ product_stock product)).
Proof.
  split; [left; reflexivity |].
  apply (submit_never_oversells (Samples.net_ok Samples.rows_ok)
           Samples.form defaultDeliveryCharges Samples.world
           Scenarios.order_item_A).
  left; reflexivity.
Defined.



(** X7.  A submission adds nothing to the cart and does not reorder it:
    the cart afterwards is a sublist of the cart before.  It is the cart
    before unless the run ended with the success message or with the
    message of the unavailable products. *)
Theorem submit_cart_shrinks {num : Type} `{!JsNumber num}
    (net : Network num) (formData : FormData)
    (deliveryCharges : DeliveryCharges num) (w : World num) :
  let w' := submit net formData deliveryCharges w in
  sublist (cart w') (cart w)
  ∧ (cart w' = cart w
     ∨ toasts w' = toasts w ++ [toast_success OrderPlaced]
     ∨ ∃ names,
         toasts w' = toasts w ++ [toast_error (ProductsUnavailable names)]).
Proof.
  cbv zeta.
  submit_paths net formData w
    ltac:(cbn; split;
          [ first [ reflexivity | apply sublist_nil_l
                  | apply remove_all_sublist ]
          | first [ left; reflexivity | right; left; reflexivity
                  | right; right; eexists; reflexivity ] ]).
Qed.

(** X8.  When the select on the products comes back with an error, a
    submission with a valid cart and valid contact data shows the message
    of that error, or the message of the failed product check when the
    error has none; nothing is stored and the cart is kept. *)
Theorem submit_product_check_failed {num : Type} `{!JsNumber num}
    (net : Network num) (formData : FormData)
    (deliveryCharges : DeliveryCharges num) (w : World num)
    (e : PostgrestError) :
  cart_valid (cart w) && contact_valid formData = true →
  error (products_answer net) = Some e →
  submit net formData deliveryCharges w
  = with_loading false
      (with_toast
         (toast_error (message_or (message e) ProductCheckFailed)) w).
Proof.
  rewrite valid_checks. intros Hvalid Herror. revert Hvalid.
  submit_paths net formData w
    ltac:(first
      [ cbn; intros Hvalid; discriminate Hvalid
      | cbn [error] in Herror;
        first [ discriminate Herror | injection Herror as -> ];
        intros _; cbn; unfold caught_message_or, message_or;
        destruct (nonempty (message e)) eqn:Htext; cbn; rewrite ?Htext;
        reflexivity ]).
Qed.

Lemma submit_product_check_failed_witness :
  cart_valid (cart Samples.world) && contact_valid Samples.form = true
  ∧ error (products_answer Scenarios.net_fetch_error)
    = Some {| message := "" |}
  ∧ submit Scenarios.net_fetch_error Samples.form defaultDeliveryCharges
      Samples.world
    = with_loading false
        (with_toast
           (toast_error
              (message_or (message {| message := "" |})
                 ProductCheckFailed))
           Samples.world).
Proof.
  repeat (split; [reflexivity |]).
  apply (submit_product_check_failed Scenarios.net_fetch_error Samples.form
           defaultDeliveryCharges Samples.world {| message := "" |});
    reflexivity.
Defined.

(** X9.  When the backend refuses the insert of the order, a submission
    that got that far shows the message of the refusal, or the message of
    the failed order when the refusal has none; nothing is stored and the
    cart is kept. *)
Theorem submit_order_refused {num : Type} `{!JsNumber num}
    (net : Network num) (formData : FormData)
    (deliveryCharges : DeliveryCharges num) (w : World num)
    (rows : list (ProductRow num)) (e : PostgrestError) :
  reaches_insert formData (cart w) rows = true →
  products_answer net = {| data := Some rows; error := None |} →
  orders_insert_answer net = inr e →
  submit net formData deliveryCharges w
  = with_loading false
      (with_toast
         (toast_error (message_or (message e) OrderCreateFailed)) w).
Proof.
  intros Hreach Hans Hrefused.
  unfold reaches_insert in Hreach.
  apply andb_prop in Hreach as [Hreach Hstock].
  apply andb_prop in Hreach as [Hreach Hrows].
  apply andb_prop in Hreach as [Hcart Hform].
  apply negb_true_iff in Hstock.
  unfold submit. rewrite handleSubmit_validated by assumption.
  unfold_steps. rewrite Hans, Hrefused. cbn [data error].
  rewrite outOfStockItems_insufficient_lines, insufficient_lines_nil
    by assumption.
  assert (Hchecked :
    (if negb (Nat.eqb (length rows) (length (cart w)))
     then
       if Nat.ltb 0 (length (missingItems (cart w) (Some rows)))
       then true else false
     else false) = false).
  { destruct (Nat.eqb (length rows) (length (cart w))); [reflexivity |].
    cbn in Hrows |- *.
    rewrite missingItems_missing_lines, every_id_fetched_none_missing
      by assumption.
    reflexivity. }
  destruct (negb (Nat.eqb (length rows) (length (cart w))));
    [destruct (Nat.ltb 0 (length (missingItems (cart w) (Some rows))));
     [discriminate |] |];
    cbn; unfold caught_message_or, message_or;
    destruct (nonempty (message e)) eqn:Htext; cbn; rewrite ?Htext;
    reflexivity.
Qed.

Lemma submit_order_refused_witness :
  reaches_insert Samples.form (cart Samples.world) Samples.rows_ok = true
  ∧ products_answer Scenarios.net_order_refused
    = {| data := Some Samples.rows_ok; error := None |}
  ∧ orders_insert_answer Scenarios.net_order_refused
    = inr {| message := "permission denied" |}
  ∧ submit Scenarios.net_order_refused Samples.form defaultDeliveryCharges
      Samples.world
    = with_loading false
        (with_toast
           (toast_error
              (message_or (message {| message := "permission denied" |})
                 OrderCreateFailed))
           Samples.world).
Proof.
  repeat (split; [reflexivity |]).
  apply (submit_order_refused Scenarios.net_order_refused Samples.form
           defaultDeliveryCharges Samples.world Samples.rows_ok
           {| message := "permission denied" |});
    reflexivity.
Defined.

Section CheckoutRetry.

Context {num : Type} `{!JsNumber num}.
Implicit Types (net : Network num) (formData : FormData)
  (deliveryCharges : DeliveryCharges num) (items : list (CartItem num))
  (rows : list (ProductRow num)) (w : World num).

(** Once the missing lines are removed, no line of the cart is missing
    from the same fetch. *)
Lemma missingItems_after_removal items
    (existing : option (list (ProductRow num))) :
  missingItems (remove_all (missingItems items existing) items) existing
  = [].
Proof.
  rewrite remove_all_filter. unfold missingItems at 1.
  rewrite filter_twice. apply filter_none, forallb_forall.
  intros item Hitem. apply negb_true_iff.
  destruct (negb (bool_decide (item_id item ∈ existingIds existing)))
    eqn:Hmissing; [| apply andb_false_r].
  rewrite andb_true_r. apply negb_false_iff, bool_decide_eq_true.
  apply list_elem_of_In, in_map. apply filter_In. auto.
Qed.

(** The cart after a run that reported unavailable products. *)
Lemma unavailable_cart net formData deliveryCharges w names :
  toasts (submit net formData deliveryCharges w)
  = toasts w ++ [toast_error (ProductsUnavailable names)] →
  cart (submit net formData deliveryCharges w)
  = remove_all (missingItems (cart w) (data (products_answer net)))
      (cart w).
Proof.
  submit_paths net formData w
    ltac:(cbn; intros Hshown;
          first
            [ reflexivity
            | exfalso; apply app_inj_tail in Hshown as [_ Hshown];
              revert Hshown; unfold caught_message_or, message_or;
              repeat (match goal with
                      | |- context [nonempty ?text] =>
                          destruct (nonempty text)
                      end; cbn);
              discriminate ]).
Qed.

(** A run on a cart none of whose lines is missing from the fetch does
    not report unavailable products. *)
Lemma none_missing_not_unavailable net formData deliveryCharges w :
  missingItems (cart w) (data (products_answer net)) = [] →
  ∃ t, toasts (submit net formData deliveryCharges w) = toasts w ++ [t]
       ∧ ∀ names, t ≠ toast_error (ProductsUnavailable names).
Proof.
  submit_paths net formData w
    ltac:(cbn; intros Hnone;
          first
            [ rewrite Hnone in Hmissing; discriminate Hmissing
            | eexists; split; [reflexivity |];
              intros names; unfold caught_message_or, message_or;
              repeat (match goal with
                      | |- context [nonempty ?text] =>
                          destruct (nonempty text)
                      end; cbn);
              discriminate ]).
Qed.

End CheckoutRetry.

(** X10.  The removal of the unavailable products makes the next attempt
    possible: when a submission is turned down for unavailable products,
    the same submission sent again, with the same answers of the backend,
    is not turned down for unavailable products. *)
Theorem submit_again_after_unavailable {num : Type} `{!JsNumber num}
    (net : Network num) (formData : FormData)
    (deliveryCharges : DeliveryCharges num) (w : World num)
    (names : list string) :
  toasts (submit net formData deliveryCharges w)
  = toasts w ++ [toast_error (ProductsUnavailable names)] →
  ∃ t, toasts (submit net formData deliveryCharges
                 (submit net formData deliveryCharges w))
       = toasts w ++ [toast_error (ProductsUnavailable names); t]
       ∧ ∀ again, t ≠ toast_error (ProductsUnavailable again).
Proof.
  intros Hfirst.
  pose proof (unavailable_cart _ _ _ _ _ Hfirst) as Hcart.
  destruct (none_missing_not_unavailable net formData deliveryCharges
              (submit net formData deliveryCharges w)) as (t & Ht & Hother).
  { rewrite Hcart. apply missingItems_after_removal. }
  exists t. split; [| exact Hother].
  rewrite Ht, Hfirst, <- app_assoc. reflexivity.
Qed.

Lemma submit_again_after_unavailable_witness :
  toasts (submit (Samples.net_ok Samples.rows_A_only) Samples.form
            defaultDeliveryCharges Samples.world)
  = toasts Samples.world ++ [toast_error (ProductsUnavailable ["B"])]
  ∧ ∃ t, toasts (submit (Samples.net_ok Samples.rows_A_only) Samples.form
                   defaultDeliveryCharges
                   (submit (Samples.net_ok Samples.rows_A_only)
                      Samples.form defaultDeliveryCharges Samples.world))
         = toasts Samples.world
           ++ [toast_error (ProductsUnavailable ["B"]); t]
         ∧ ∀ again, t ≠ toast_error (ProductsUnavailable again).
Proof.
  split; [reflexivity |].
  apply (submit_again_after_unavailable (Samples.net_ok Samples.rows_A_only)
           Samples.form defaultDeliveryCharges Samples.world ["B"]).
  reflexivity.
Defined.

(** With A alone fetched, the first attempt removes B, and the second
    places the order of A. *)
Example submit_again_places_order :
  toasts (submit (Samples.net_ok Samples.rows_A_only) Samples.form
            defaultDeliveryCharges
            (submit (Samples.net_ok Samples.rows_A_only) Samples.form
               defaultDeliveryCharges Samples.world))
  = [toast_error (ProductsUnavailable ["B"]); toast_success OrderPlaced].
Proof. reflexivity. Qed.

(** * Home page: search *)

Section Search.

Import Catalog.

Lemma lower_ascii_idempotent c : lower_ascii (lower_ascii c) = lower_ascii c.
Proof. destruct c as [[] [] [] [] [] [] [] []]; reflexivity. Qed.

Lemma is_whitespace_lower c : is_whitespace (lower_ascii c) = is_whitespace c.
Proof. destruct c as [[] [] [] [] [] [] [] []]; reflexivity. Qed.

Lemma toLowerCase_idempotent s : toLowerCase (toLowerCase s) = toLowerCase s.
Proof.
  induction s as [| c s IH]; [reflexivity |].
  cbn [toLowerCase]. rewrite lower_ascii_idempotent, IH. reflexivity.
Qed.

Lemma toLowerCase_rev_app s t :
  toLowerCase (String.rev_app s t)
  = String.rev_app (toLowerCase s) (toLowerCase t).
Proof.
  revert t. induction s as [| c s IH]; intros t; [reflexivity |].
  cbn [toLowerCase String.rev_app]. rewrite IH. reflexivity.
Qed.

Lemma toLowerCase_rev s :
  toLowerCase (String.rev s) = String.rev (toLowerCase s).
Proof. apply toLowerCase_rev_app. Qed.

Lemma toLowerCase_trimStart s :
  toLowerCase (trimStart s) = trimStart (toLowerCase s).
Proof.
  induction s as [| c s IH]; [reflexivity |].
  cbn [toLowerCase trimStart]. rewrite is_whitespace_lower.
  destruct (is_whitespace c); [exact IH | reflexivity].
Qed.

(** Lower-casing and trimming commute. *)
Lemma toLowerCase_trim s : toLowerCase (trim s) = trim (toLowerCase s).
Proof.
  unfold trim, trimEnd.
  rewrite toLowerCase_rev, toLowerCase_trimStart, toLowerCase_rev,
    toLowerCase_trimStart.
  reflexivity.
Qed.

Lemma nonempty_toLowerCase s : nonempty (toLowerCase s) = nonempty s.
Proof. destruct s; reflexivity. Qed.

(** Whether a query is blank depends on its lower-cased form only. *)
Lemma blank_query_lower s :
  nonempty (trim s) = nonempty (trim (toLowerCase s)).
Proof. rewrite <- toLowerCase_trim, nonempty_toLowerCase. reflexivity. Qed.

Lemma trimStart_whitespace s :
  forallb is_whitespace (list_ascii_of_string s) = true →
  trimStart s = "".
Proof.
  induction s as [| c s IH]; [reflexivity |].
  cbn [list_ascii_of_string forallb trimStart].
  intros H. apply andb_prop in H as [-> H]. auto.
Qed.

Lemma matchesQuery_lower query1 query2 p :
  toLowerCase query1 = toLowerCase query2 →
  matchesQuery query1 p = matchesQuery query2 p.
Proof. unfold matchesQuery. intros ->. reflexivity. Qed.

End Search.

(** X11.  A search never narrows the one before it: the handler filters
    the whole catalog, so searching for a second query after a first one
    leaves the page in the state that the second query alone gives. *)
Theorem handleSearch_over_whole_catalog (window : FbPixel.Window)
    (query1 query2 : string) (st : Catalog.HomeState) :
  FbPixel.completion
    (FbPixel.fbqTrack window "Search" [("search_string", JString query2)])
  = FbPixel.Returns →
  snd (Catalog.handleSearch window query2
         (snd (Catalog.handleSearch window query1 st)))
  = snd (Catalog.handleSearch window query2 st).
Proof.
  intros Htracked.
  set (st1 := snd (Catalog.handleSearch window query1 st)).
  assert (Hkept : Catalog.products st1 = Catalog.products st
                  ∧ Catalog.sortBy st1 = Catalog.sortBy st).
  { unfold st1, Catalog.handleSearch.
    destruct (FbPixel.completion
                (FbPixel.fbqTrack window "Search"
                   [("search_string", JString query1)]));
      split; reflexivity. }
  clearbody st1. destruct Hkept as [Hproducts HsortBy].
  unfold Catalog.handleSearch. rewrite Htracked. cbn [snd].
  rewrite Hproducts, HsortBy. reflexivity.
Qed.

Lemma handleSearch_over_whole_catalog_witness :
  FbPixel.completion
    (FbPixel.fbqTrack Scenarios.quiet_window "Search"
       [("search_string", JString "case")])
  = FbPixel.Returns
  ∧ snd (Catalog.handleSearch Scenarios.quiet_window "case"
           (snd (Catalog.handleSearch Scenarios.quiet_window "usb"
                   Scenarios.home)))
    = snd (Catalog.handleSearch Scenarios.quiet_window "case"
             Scenarios.home).
Proof.
  split; [reflexivity |].
  apply (handleSearch_over_whole_catalog Scenarios.quiet_window "usb" "case"
           Scenarios.home).
  reflexivity.
Defined.

(** X12.  The search does not look at letter case: two queries with the
    same lower-case form give the same list of results, and both put the
    page back to 1. *)
Theorem handleSearch_ignores_case (window : FbPixel.Window)
    (query1 query2 : string) (st : Catalog.HomeState) :
  toLowerCase query1 = toLowerCase query2 →
  FbPixel.completion
    (FbPixel.fbqTrack window "Search" [("search_string", JString query1)])
  = FbPixel.Returns →
  FbPixel.completion
    (FbPixel.fbqTrack window "Search" [("search_string", JString query2)])
  = FbPixel.Returns →
  snd (Catalog.handleSearch window query1 st)
  = snd (Catalog.handleSearch window query2 st)
  ∧ Catalog.currentPage (snd (Catalog.handleSearch window query1 st)) = 1.
Proof.
  intros Hlower Hfirst Hsecond. unfold Catalog.handleSearch.
  rewrite Hfirst, Hsecond. cbn [snd Catalog.currentPage].
  split; [| reflexivity]. f_equal.
  rewrite (blank_query_lower query1), (blank_query_lower query2), Hlower.
  destruct (negb (nonempty (trim (toLowerCase query2)))); [reflexivity |].
  apply filter_ext. intros p. apply matchesQuery_lower, Hlower.
Qed.

Lemma handleSearch_ignores_case_witness :
  toLowerCase "USB" = toLowerCase "usb"
  ∧ FbPixel.completion
      (FbPixel.fbqTrack Scenarios.quiet_window "Search"
         [("search_string", JString "USB")])
    = FbPixel.Returns
  ∧ FbPixel.completion
      (FbPixel.fbqTrack Scenarios.quiet_window "Search"
         [("search_string", JString "usb")])
    = FbPixel.Returns
  ∧ snd (Catalog.handleSearch Scenarios.quiet_window "USB" Scenarios.home)
    = snd (Catalog.handleSearch Scenarios.quiet_window "usb" Scenarios.home)
  ∧ Catalog.currentPage
      (snd (Catalog.handleSearch Scenarios.quiet_window "USB"
              Scenarios.home)) = 1.
Proof.
  repeat (split; [reflexivity |]).
  apply (handleSearch_ignores_case Scenarios.quiet_window "USB" "usb"
           Scenarios.home);
    reflexivity.
Defined.

(** X13.  A query made of white space only shows the whole catalog again,
    from page 1. *)
Theorem handleSearch_blank_query (window : FbPixel.Window)
    (query : string) (st : Catalog.HomeState) :
  forallb is_whitespace (list_ascii_of_string query) = true →
  FbPixel.completion
    (FbPixel.fbqTrack window "Search" [("search_string", JString query)])
  = FbPixel.Returns →
  let st' := snd (Catalog.handleSearch window query st) in
  Catalog.filteredProducts st' = Catalog.products st
  ∧ Catalog.currentPage st' = 1.
Proof.
  intros Hblank Htracked. unfold Catalog.handleSearch. rewrite Htracked.
  cbn. unfold trim. rewrite (trimStart_whitespace query Hblank).
  split; reflexivity.
Qed.

Lemma handleSearch_blank_query_witness :
  forallb is_whitespace (list_ascii_of_string "  ") = true
  ∧ FbPixel.completion
      (FbPixel.fbqTrack Scenarios.quiet_window "Search"
         [("search_string", JString "  ")])
    = FbPixel.Returns
  ∧ Catalog.filteredProducts
      (snd (Catalog.handleSearch Scenarios.quiet_window "  " Scenarios.home))
    = Catalog.products Scenarios.home
  ∧ Catalog.currentPage
      (snd (Catalog.handleSearch Scenarios.quiet_window "  " Scenarios.home))
    = 1.
Proof.
  repeat (split; [reflexivity |]).
  apply (handleSearch_blank_query Scenarios.quiet_window "  "
           Scenarios.home);
    reflexivity.
Defined.

(** X14.  The search depends on the tracking call: when the pixel is
    loaded and its call raises, the handler ends there, and neither the
    list of results nor the page changes. *)
Theorem handleSearch_pixel_raises (window : FbPixel.Window)
    (f : string → string → list (string * JsValue) → FbPixel.Completion)
    (query : string) (thrown : JsValue) (st : Catalog.HomeState) :
  FbPixel.fbq window = Some f →
  f "track" "Search" [("search_string", JString query)]
  = FbPixel.Raises thrown →
  Catalog.handleSearch window query st
  = ({| FbPixel.warnings := [];
        FbPixel.completion := FbPixel.Raises thrown |}, st).
Proof.
  intros Hloaded Hraises. unfold Catalog.handleSearch, FbPixel.fbqTrack.
  rewrite Hloaded. cbn. rewrite Hraises. reflexivity.
Qed.

Lemma handleSearch_pixel_raises_witness :
  FbPixel.fbq Samples.loaded_window = Some Samples.failing_fbq
  ∧ Samples.failing_fbq "track" "Search" [("search_string", JString "usb")]
    = FbPixel.Raises (JString "network error")
  ∧ Catalog.handleSearch Samples.loaded_window "usb" Scenarios.home
    = ({| FbPixel.warnings := [];
          FbPixel.completion := FbPixel.Raises (JString "network error") |},
       Scenarios.home).
Proof.
  repeat (split; [reflexivity |]).
  apply (handleSearch_pixel_raises Samples.loaded_window Samples.failing_fbq
           "usb" (JString "network error") Scenarios.home);
    reflexivity.
Defined.

(** * Home page: sorting *)

Section Sorting.

Import Catalog.

Context {A : Type}.
Implicit Types (compareFn : A → A → Q) (l : list A).

Lemma insertSorted_perm compareFn x l :
  Permutation (insertSorted compareFn x l) (x :: l).
Proof.
  induction l as [| y l IH]; [reflexivity |].
  cbn [insertSorted]. destruct (Qle_bool (compareFn x y) 0); [reflexivity |].
  rewrite IH. apply perm_swap.
Qed.

Lemma Array_sort_perm compareFn l : Permutation (Array_sort compareFn l) l.
Proof.
  induction l as [| x l IH]; [reflexivity |].
  cbn [Array_sort fold_right]. rewrite insertSorted_perm.
  apply perm_skip, IH.
Qed.

Section Ordered.

(** The order a comparator sorts by: whenever [compareFn a b <= 0], [a]
    may stand before [b]; whenever it is positive, [b] may stand before
    [a]. *)
Variable R : A → A → Prop.
Variable compareFn : A → A → Q.
Hypothesis before : ∀ a b, Qle_bool (compareFn a b) 0 = true → R a b.
Hypothesis after : ∀ a b, Qle_bool (compareFn a b) 0 = false → R b a.
Hypothesis transitive : ∀ a b c, R a b → R b c → R a c.

Lemma insertSorted_sorted x l :
  StronglySorted R l → StronglySorted R (insertSorted compareFn x l).
Proof.
  induction 1 as [| y l Hsorted IH Hy].
  - repeat constructor.
  - cbn [insertSorted]. destruct (Qle_bool (compareFn x y) 0) eqn:Hxy.
    + constructor; [constructor; assumption |].
      constructor; [auto |].
      eapply List.Forall_impl; [| exact Hy]. intros z Hz. eauto.
    + constructor; [exact IH |].
      rewrite insertSorted_perm. constructor; [auto | exact Hy].
Qed.

Lemma Array_sort_sorted l : StronglySorted R (Array_sort compareFn l).
Proof.
  induction l as [| x l IH]; [constructor |].
  cbn [Array_sort fold_right]. apply insertSorted_sorted, IH.
Qed.

End Ordered.

Section Stable.

(** A class of elements that the comparator does not tell apart. *)
Variable P : A → bool.
Variable compareFn : A → A → Q.
Hypothesis tied :
  ∀ x y, P x = true → P y = true → Qle_bool (compareFn x y) 0 = true.

Lemma insertSorted_filter x l :
  List.filter P (insertSorted compareFn x l) = List.filter P (x :: l).
Proof.
  induction l as [| y l IH]; [reflexivity |].
  cbn [insertSorted]. destruct (Qle_bool (compareFn x y) 0) eqn:Hxy;
    [reflexivity |].
  cbn [List.filter] in IH |- *. rewrite IH.
  destruct (P x) eqn:Hx, (P y) eqn:Hy; try reflexivity.
  rewrite (tied x y Hx Hy) in Hxy. discriminate.
Qed.

Lemma Array_sort_stable l :
  List.filter P (Array_sort compareFn l) = List.filter P l.
Proof.
  induction l as [| x l IH]; [reflexivity |].
  cbn [Array_sort fold_right]. rewrite insertSorted_filter.
  cbn [List.filter]. fold (Array_sort compareFn l). rewrite IH.
  reflexivity.
Qed.

End Stable.

End Sorting.

Lemma Qle_bool_inject_Z z : Qle_bool (inject_Z z) 0 = (z <=? 0).
Proof.
  unfold Qle_bool. cbn [inject_Z Qnum Qden]. rewrite Z.mul_1_r.
  reflexivity.
Qed.

Lemma Qle_bool_minus (x y : Q) :
  Qle_bool (x - y) 0 = true ↔ (x <= y)%Q.
Proof. rewrite Qle_bool_iff. split; intros; lra. Qed.

Lemma Qle_bool_minus_false (x y : Q) :
  Qle_bool (x - y) 0 = false → (y <= x)%Q.
Proof.
  intros H. destruct (Qlt_le_dec y x) as [Hlt | Hle].
  - apply Qlt_le_weak, Hlt.
  - apply Qle_bool_minus in Hle. congruence.
Qed.

(** X15.  Sorting loses nothing and invents nothing: for every sort key,
    known or not, and whatever the platform's date parser and string
    comparison answer, the sorted list is a permutation of the filtered
    list. *)
Theorem sortedProducts_permutation (Date_getTime : string → Z)
    (localeCompare : string → string → Z)
    (filteredProducts : list Catalog.Product) (sortBy : string) :
  Permutation
    (Catalog.sortedProducts Date_getTime localeCompare filteredProducts
       sortBy)
    filteredProducts.
Proof.
  unfold Catalog.sortedProducts.
  repeat match goal with
         | |- context [if String.eqb sortBy ?key then _ else _] =>
             destruct (String.eqb sortBy key)
         end;
    first [apply Array_sort_perm | reflexivity].
Qed.

(** X16.  Under "price-low" every product stands before all products of a
    price at least its own, and under "price-high" before all products of
    a price at most its own. *)
Theorem sortedProducts_by_price (Date_getTime : string → Z)
    (localeCompare : string → string → Z)
    (filteredProducts : list Catalog.Product) :
  StronglySorted (λ a b, (Catalog.p_price a <= Catalog.p_price b)%Q)
    (Catalog.sortedProducts Date_getTime localeCompare filteredProducts
       "price-low")
  ∧ StronglySorted (λ a b, (Catalog.p_price b <= Catalog.p_price a)%Q)
      (Catalog.sortedProducts Date_getTime localeCompare filteredProducts
         "price-high").
Proof.
  split.
  - apply (Array_sort_sorted
             (λ a b, (Catalog.p_price a <= Catalog.p_price b)%Q)).
    + intros a b. apply Qle_bool_minus.
    + intros a b. apply Qle_bool_minus_false.
    + intros a b c. apply Qle_trans.
  - apply (Array_sort_sorted
             (λ a b, (Catalog.p_price b <= Catalog.p_price a)%Q)).
    + intros a b. apply Qle_bool_minus.
    + intros a b. apply Qle_bool_minus_false.
    + intros a b c Hab Hbc. eapply Qle_trans; eassumption.
Qed.

(** X17.  Under "priority", the default key, products stand in the order
    of their priority number, a missing priority counting as 999; among
    products of one priority the later created stands first. *)
Theorem sortedProducts_by_priority (Date_getTime : string → Z)
    (localeCompare : string → string → Z)
    (filteredProducts : list Catalog.Product) :
  StronglySorted
    (λ a b,
       Catalog.priorityOf a < Catalog.priorityOf b
       ∨ (Catalog.priorityOf a = Catalog.priorityOf b
          ∧ Catalog.createdTime Date_getTime b
            ≤ Catalog.createdTime Date_getTime a))
    (Catalog.sortedProducts Date_getTime localeCompare filteredProducts
       "priority").
Proof.
  apply Array_sort_sorted with
    (compareFn := Catalog.compareByPriority Date_getTime).
  - intros a b. unfold Catalog.compareByPriority. cbv zeta.
    destruct (Z.eqb_spec (Catalog.priorityOf a) (Catalog.priorityOf b));
      cbn [negb]; rewrite Qle_bool_inject_Z; intros Hle;
      apply Z.leb_le in Hle; lia.
  - intros a b. unfold Catalog.compareByPriority. cbv zeta.
    destruct (Z.eqb_spec (Catalog.priorityOf a) (Catalog.priorityOf b));
      cbn [negb]; rewrite Qle_bool_inject_Z; intros Hle;
      apply Z.leb_gt in Hle; lia.
  - intros a b c. lia.
Qed.

(** X18.  Under "newest" every product stands before all products created
    no later than itself, under "oldest" before all products created no
    earlier; a product without a creation date counts as created at
    time 0. *)
Theorem sortedProducts_by_date (Date_getTime : string → Z)
    (localeCompare : string → string → Z)
    (filteredProducts : list Catalog.Product) :
  StronglySorted
    (λ a b, Catalog.createdTime Date_getTime b
            ≤ Catalog.createdTime Date_getTime a)
    (Catalog.sortedProducts Date_getTime localeCompare filteredProducts
       "newest")
  ∧ StronglySorted
      (λ a b, Catalog.createdTime Date_getTime a
              ≤ Catalog.createdTime Date_getTime b)
      (Catalog.sortedProducts Date_getTime localeCompare filteredProducts
         "oldest").
Proof.
  split.
  - apply Array_sort_sorted with
      (compareFn := λ a b,
         inject_Z (Catalog.createdTime Date_getTime b
                   - Catalog.createdTime Date_getTime a)).
    + intros a b. rewrite Qle_bool_inject_Z. intros Hle.
      apply Z.leb_le in Hle. lia.
    + intros a b. rewrite Qle_bool_inject_Z. intros Hle.
      apply Z.leb_gt in Hle. lia.
    + intros a b c. lia.
  - apply Array_sort_sorted with
      (compareFn := λ a b,
         inject_Z (Catalog.createdTime Date_getTime a
                   - Catalog.createdTime Date_getTime b)).
    + intros a b. rewrite Qle_bool_inject_Z. intros Hle.
      apply Z.leb_le in Hle. lia.
    + intros a b. rewrite Qle_bool_inject_Z. intros Hle.
      apply Z.leb_gt in Hle. lia.
    + intros a b c. lia.
Qed.

(** X19.  Sorting is stable.  Under either price key the products of one
    price keep the order they had in the filtered list; under "priority"
    so do the products of one priority and one creation time. *)
Theorem sortedProducts_stable (Date_getTime : string → Z)
    (localeCompare : string → string → Z)
    (filteredProducts : list Catalog.Product) (price : Q)
    (priority time : Z) :
  let sorted :=
    Catalog.sortedProducts Date_getTime localeCompare filteredProducts in
  let priced p := Qeq_bool (Catalog.p_price p) price in
  let ranked p :=
    (Catalog.priorityOf p =? priority)
    && (Catalog.createdTime Date_getTime p =? time) in
  List.filter priced (sorted "price-low")
  = List.filter priced filteredProducts
  ∧ List.filter priced (sorted "price-high")
    = List.filter priced filteredProducts
  ∧ List.filter ranked (sorted "priority")
    = List.filter ranked filteredProducts.
Proof.
  cbv zeta. repeat split.
  - apply (Array_sort_stable (λ p, Qeq_bool (Catalog.p_price p) price)).
    intros x y Hx Hy. apply Qeq_bool_iff in Hx, Hy.
    apply Qle_bool_minus. rewrite Hx, Hy. apply Qle_refl.
  - apply (Array_sort_stable (λ p, Qeq_bool (Catalog.p_price p) price)).
    intros x y Hx Hy. apply Qeq_bool_iff in Hx, Hy.
    apply Qle_bool_minus. rewrite Hx, Hy. apply Qle_refl.
  - apply (Array_sort_stable
             (λ p, (Catalog.priorityOf p =? priority)
                   && (Catalog.createdTime Date_getTime p =? time))
             (Catalog.compareByPriority Date_getTime)).
    intros x y Hx Hy.
    apply andb_prop in Hx as [Hpx Htx]. apply andb_prop in Hy as [Hpy Hty].
    apply Z.eqb_eq in Hpx, Htx, Hpy, Hty.
    unfold Catalog.compareByPriority. cbv zeta.
    rewrite Hpx, Hpy, Htx, Hty, Z.eqb_refl. cbn [negb].
    rewrite Qle_bool_inject_Z. apply Z.leb_le. lia.
Qed.

(** * Home page: the pages together *)

Section Pages.

Context {A : Type}.
Implicit Types (l : list A).

Lemma concat_chunks l (k : nat) :
  concat (List.map (λ i : nat, take 12 (drop (i * 12) l)) (seq 0 k))
  = take (k * 12) l.
Proof.
  induction k as [| k IH]; [reflexivity |].
  rewrite seq_S, List.map_app, concat_app, IH. cbn [List.map concat].
  rewrite app_nil_r, take_take_drop. f_equal. lia.
Qed.

Lemma pages_chunks l (k : nat) :
  List.map (Home.paginatedProducts l) (seqZ 1 (Z.of_nat k))
  = List.map (λ i : nat, take 12 (drop (i * 12) l)) (seq 0 k).
Proof.
  unfold seqZ. rewrite Nat2Z.id.
  change (fmap ?f ?l) with (List.map f l). rewrite List.map_map.
  apply List.map_ext. intros i.
  rewrite slice_from_page by lia. do 2 f_equal. lia.
Qed.

Lemma page_length l (p : Z) :
  1 ≤ p →
  Z.of_nat (length (Home.paginatedProducts l p))
  = Z.max 0 (Z.min 12 (Z.of_nat (length l) - (p - 1) * 12)).
Proof.
  intros Hp. rewrite slice_from_page by assumption.
  rewrite length_take, length_drop. lia.
Qed.

End Pages.

(** X20.  The pages 1 to [totalPages] together are the sorted list: laid
    end to end in the order of their numbers they show every product once
    and in its place. *)
Theorem pages_partition {A : Type} (sortedProducts : list A) :
  concat
    (List.map (Home.paginatedProducts sortedProducts)
       (seqZ 1 (Home.totalPages sortedProducts)))
  = sortedProducts.
Proof.
  rewrite totalPages_div.
  set (k := Z.to_nat ((Z.of_nat (length sortedProducts) + 11) / 12)).
  replace ((Z.of_nat (length sortedProducts) + 11) / 12)
    with (Z.of_nat k) by (unfold k; Z.div_mod_to_equations; lia).
  rewrite pages_chunks, concat_chunks. apply take_ge.
  unfold k. Z.div_mod_to_equations. lia.
Qed.

(** X21.  A page of a number from 1 on holds at most 12 products, and it
    holds at least one exactly when its number is at most
    [totalPages]. *)
Theorem page_shows_products {A : Type} (sortedProducts : list A) (p : Z) :
  1 ≤ p →
  (length (Home.paginatedProducts sortedProducts p) ≤ 12)%nat
  ∧ (Home.paginatedProducts sortedProducts p ≠ []
     ↔ p ≤ Home.totalPages sortedProducts).
Proof.
  intros Hp. pose proof (page_length sortedProducts p Hp) as Hlen.
  rewrite totalPages_div. split; [lia |].
  rewrite <- length_zero_iff_nil.
  split; intros H; Z.div_mod_to_equations; lia.
Qed.

Lemma page_shows_products_witness :
  1 ≤ 3
  ∧ (length (Home.paginatedProducts (seq 0 25) 3) ≤ 12)%nat
  ∧ (Home.paginatedProducts (seq 0 25) 3 ≠ []
     ↔ 3 ≤ Home.totalPages (seq 0 25)).
Proof.
  split; [lia |]. apply (page_shows_products (seq 0 25) 3). lia.
Defined.

(** * Product page: gallery and quantity *)

Lemma rem_wrap (a n : Z) : 0 ≤ a < n → Z.rem (a + n) n = a.
Proof.
  intros Ha. rewrite Z.rem_mod_nonneg by lia.
  replace (a + n) with (a + 1 * n) by lia.
  rewrite Z_mod_plus_full. apply Z.mod_small. lia.
Qed.

(** X22.  The gallery never points outside its slides: from an index
    within the slides, the next and previous buttons, the timer and the
    click on a thumbnail of the gallery all lead to an index within the
    slides. *)
Theorem gallery_index_in_range (length current : Z)
    (click : ProductPage.GalleryClick) :
  0 ≤ current < length →
  match click with
  | ProductPage.ClickThumbnail index => Z.of_nat index < length
  | _ => True
  end →
  0 ≤ ProductPage.galleryStep length current click < length.
Proof.
  intros Hcurrent Hclick.
  destruct click as [| | index |]; cbn [ProductPage.galleryStep].
  - apply Z.rem_bound_pos; lia.
  - apply Z.rem_bound_pos; lia.
  - lia.
  - unfold ProductPage.autoAdvance.
    destruct (Z.eqb_spec length 0); [lia |]. apply Z.rem_bound_pos; lia.
Qed.

Lemma gallery_index_in_range_witness :
  0 ≤ 0 < 4
  ∧ 0 ≤ ProductPage.galleryStep 4 0 ProductPage.ClickPrevious < 4.
Proof.
  split; [lia |].
  apply (gallery_index_in_range 4 0 ProductPage.ClickPrevious);
    [lia | exact I].
Defined.

(** X23.  The next and the previous button undo each other, also across
    the ends of the gallery; and the timer moves as the next button
    does. *)
Theorem gallery_next_previous (length current : Z) :
  0 ≤ current < length →
  ProductPage.previousImage length (ProductPage.nextImage length current)
  = current
  ∧ ProductPage.nextImage length (ProductPage.previousImage length current)
    = current
  ∧ ProductPage.autoAdvance length current
    = ProductPage.nextImage length current.
Proof.
  intros Hcurrent.
  unfold ProductPage.previousImage, ProductPage.nextImage,
    ProductPage.autoAdvance.
  assert (Hnext : Z.rem (current + 1) length
                  = if current + 1 =? length then 0 else current + 1).
  { destruct (Z.eqb_spec (current + 1) length) as [-> | Hend].
    - apply Z.rem_same. lia.
    - apply Z.rem_small. lia. }
  assert (Hprevious : Z.rem (current - 1 + length) length
                      = if current =? 0 then length - 1 else current - 1).
  { destruct (Z.eqb_spec current 0) as [-> | Hfirst].
    - replace (0 - 1 + length) with (length - 1) by lia.
      apply Z.rem_small. lia.
    - apply rem_wrap. lia. }
  rewrite Hnext, Hprevious. repeat split.
  - destruct (Z.eqb_spec (current + 1) length) as [Hend | Hend].
    + replace (0 - 1 + length) with (length - 1) by lia.
      rewrite Z.rem_small by lia. lia.
    + replace (current + 1 - 1 + length) with (current + length) by lia.
      apply rem_wrap. lia.
  - destruct (Z.eqb_spec current 0) as [-> | Hfirst].
    + replace (length - 1 + 1) with length by lia. apply Z.rem_same. lia.
    + replace (current - 1 + 1) with current by lia.
      apply Z.rem_small. lia.
  - destruct (Z.eqb_spec length 0); [lia | reflexivity].
Qed.

Lemma gallery_next_previous_witness :
  0 ≤ 3 < 4
  ∧ ProductPage.previousImage 4 (ProductPage.nextImage 4 3) = 3
  ∧ ProductPage.nextImage 4 (ProductPage.previousImage 4 3) = 3
  ∧ ProductPage.autoAdvance 4 3 = ProductPage.nextImage 4 3.
Proof.
  split; [lia |]. apply (gallery_next_previous 4 3). lia.
Defined.

(** X24.  The quantity selector stays between 1 and the stock: with a
    quantity in that range, either button gives a quantity in that
    range. *)
Theorem quantity_in_range (stock quantity : Z)
    (click : ProductPage.QuantityClick) :
  1 ≤ quantity ≤ stock →
  1 ≤ ProductPage.quantityStep stock quantity click ≤ stock.
Proof.
  intros Hquantity. destruct click; cbn [ProductPage.quantityStep]; lia.
Qed.

Lemma quantity_in_range_witness :
  1 ≤ 5 ≤ 5
  ∧ 1 ≤ ProductPage.quantityStep 5 5 ProductPage.ClickPlus ≤ 5.
Proof.
  split; [lia |].
  apply (quantity_in_range 5 5 ProductPage.ClickPlus). lia.
Defined.

(** * Product page: the images of the gallery *)

Section Gallery.

Import Normalizer.

Lemma filter_idempotent {B : Type} (f : B → bool) (l : list B) :
  List.filter f (List.filter f l) = List.filter f l.
Proof.
  induction l as [| x l IH]; [reflexivity |].
  cbn [List.filter]. destruct (f x) eqn:Hx; [| exact IH].
  cbn [List.filter]. rewrite Hx, IH. reflexivity.
Qed.

(** The gallery of a product whose images are the non-blank entries of
    some list, or else its usable [image_url]. *)
Lemma allImages_media JSON_parse p :
  ProductPage.allImages (media_nonblank_fallback JSON_parse p)
    (raw_image_url p)
  = default [] (media_nonblank_fallback JSON_parse p).
Proof.
  rewrite media_nonblank_fallback_unfold.
  destruct (List.filter nonblank_string (entries JSON_parse (raw_images p)))
    as [| x kept] eqn:Hkept.
  - destruct (raw_image_url p) as [u |]; [| reflexivity].
    destruct (keepString u) eqn:Hu; cbn; [| rewrite Hu; reflexivity].
    change (keepImage (JString u)) with
      (nonempty u && true && nonempty (trim u)).
    unfold keepString in Hu. rewrite andb_true_r, Hu. reflexivity.
  - cbn [ProductPage.allImages default from_option id].
    rewrite <- Hkept, filter_keepImage. apply filter_idempotent.
Qed.

Lemma allImages_fallback p :
  ProductPage.allImages (Catalog.fallbackImages p) (raw_image_url p)
  = match raw_image_url p with
    | Some u => if keepString u then [JString u] else []
    | None => []
    end.
Proof.
  unfold Catalog.fallbackImages, ProductPage.allImages.
  destruct (raw_image_url p) as [u |]; [| reflexivity].
  unfold keepString. destruct (nonempty u) eqn:Hu.
  - cbn [List.filter].
    change (keepImage (JString u)) with
      (nonempty u && true && nonempty (trim u)).
    rewrite Hu. cbn [andb]. destruct (nonempty (trim u)); reflexivity.
  - reflexivity.
Qed.

End Gallery.

(** X25.  The gallery shows the product's images as [fetchProduct] stored
    them: the filter of [allImages] removes nothing from a normalized
    list, and where the normalizer found no media the gallery is
    empty. *)
Theorem allImages_of_normalized (JSON_parse : string → option JsValue)
    (data : RawProduct) :
  ProductPage.allImages (ProductDetails.normalizeImages JSON_parse data)
    (raw_image_url data)
  = default [] (ProductDetails.normalizeImages JSON_parse data).
Proof.
  rewrite ProductDetails_normalizeImages_media. apply allImages_media.
Qed.

(** X26.  A product without an [images] value gets the same gallery
    whether it was read by the full select or by the fallback select: the
    fallback branch accepts a blank [image_url], and the filter of
    [allImages] removes it again. *)
Theorem allImages_fallback_agrees (JSON_parse : string → option JsValue)
    (p : RawProduct) :
  raw_images p = JNull ∨ raw_images p = JUndefined →
  ProductPage.allImages (Catalog.fallbackImages p) (raw_image_url p)
  = ProductPage.allImages (ProductDetails.normalizeImages JSON_parse p)
      (raw_image_url p).
Proof.
  intros Hnone. rewrite allImages_fallback.
  rewrite ProductDetails_normalizeImages_media, allImages_media.
  rewrite media_nonblank_fallback_unfold. unfold entries.
  destruct Hnone as [-> | ->]; cbn [List.filter];
    destruct (raw_image_url p) as [u |]; try reflexivity;
    destruct (Normalizer.keepString u); reflexivity.
Qed.

Lemma allImages_fallback_agrees_witness :
  (raw_images Samples.blank_url_product = JNull
   ∨ raw_images Samples.blank_url_product = JUndefined)
  ∧ ProductPage.allImages
      (Catalog.fallbackImages Samples.blank_url_product)
      (raw_image_url Samples.blank_url_product)
    = ProductPage.allImages
        (ProductDetails.normalizeImages Samples.parse_gallery
           Samples.blank_url_product)
        (raw_image_url Samples.blank_url_product).
Proof.
  split; [left; reflexivity |].
  apply (allImages_fallback_agrees Samples.parse_gallery
           Samples.blank_url_product).
  left; reflexivity.
Defined.

(** * Cart page: thumbnails and videos *)

Section Thumbnails.

Lemma length_toLowerCase s :
  String.length (toLowerCase s) = String.length s.
Proof.
  induction s as [| c s IH]; [reflexivity |].
  cbn [toLowerCase String.length]. rewrite IH. reflexivity.
Qed.

Lemma get_toLowerCase s (i : nat) :
  get i (toLowerCase s) = option_map lower_ascii (get i s).
Proof.
  revert i. induction s as [| c s IH]; intros i; [reflexivity |].
  destruct i as [| i]; [reflexivity |]. cbn [toLowerCase get]. apply IH.
Qed.

(** A string that ends with a suffix ends with the last character of the
    suffix. *)
Lemma endsWith_last s suffix :
  endsWith s suffix = true → suffix ≠ "" →
  get (String.length s - 1) s = get (String.length suffix - 1) suffix.
Proof.
  unfold endsWith. intros Hends Hsuffix.
  assert (String.length suffix ≠ 0)%nat
    by (destruct suffix; [congruence | discriminate]).
  destruct (Nat.leb_spec (String.length suffix) (String.length s));
    [| discriminate].
  apply String.eqb_eq in Hends. rewrite <- Hends at 2.
  rewrite substring_correct1 by lia. f_equal. lia.
Qed.

(** The last character of a url that passes the image test of the cart
    is one of [g], [f] and [p], whatever the case of the url. *)
Lemma isValidImage_last url :
  isValidImage (JString url) = true →
  In (get (String.length url - 1) (toLowerCase url))
    [Some "g"%char; Some "f"%char; Some "p"%char].
Proof.
  intros Hvalid. apply isValidImage_qualifies in Hvalid.
  destruct Hvalid as (url' & [= <-] & ext & Hext & Hends).
  rewrite <- (length_toLowerCase url).
  assert (Hne : ext ≠ "")
    by (intros ->; cbn in Hext; intuition discriminate).
  rewrite (endsWith_last _ _ Hends Hne).
  cbn in Hext. intuition (subst ext; cbn; auto).
Qed.

Lemma video_extension_not_image url suffix (c : ascii) :
  endsWith url suffix = true → suffix ≠ "" →
  get (String.length suffix - 1) suffix = Some c →
  ¬ In (Some (lower_ascii c))
      [Some "g"%char; Some "f"%char; Some "p"%char] →
  isValidImage (JString url) = false.
Proof.
  intros Hends Hne Hlast Hnot.
  destruct (isValidImage (JString url)) eqn:Hvalid; [| reflexivity].
  apply isValidImage_last in Hvalid.
  rewrite get_toLowerCase, (endsWith_last _ _ Hends Hne), Hlast in Hvalid.
  contradiction.
Qed.

End Thumbnails.

(** X27.  What the gallery plays as a video because of its ending is never
    the thumbnail of a cart line: the url that the strict helper returns
    ends neither with ".mp4" nor with ".webm", so the gallery's test takes
    it for a video only when the url contains "video". *)
Theorem getFirstImageUrl_never_video
    (JSON_parse : string → option JsValue) (imageData : JsValue)
    (url : string) :
  getFirstImageUrl JSON_parse imageData = Some (JString url) →
  endsWith url ".mp4" = false ∧ endsWith url ".webm" = false
  ∧ ProductPage.isVideo url = Catalog.includes url "video".
Proof.
  intros Hfirst.
  cut (endsWith url ".mp4" = false ∧ endsWith url ".webm" = false).
  { intros [Hmp4 Hwebm]. repeat split; [assumption .. |].
    unfold ProductPage.isVideo. rewrite Hmp4, Hwebm, !orb_false_r.
    reflexivity. }
  assert (Hvalid : isValidImage (JString url) = true).
  { unfold getFirstImageUrl in Hfirst.
    destruct (negb (truthy imageData)); [discriminate |].
    cbv zeta in Hfirst.
    destruct (List.filter isValidImage _) as [| first rest] eqn:Hkept;
      [discriminate |].
    injection Hfirst as ->.
    assert (Hin : In (JString url) (List.filter isValidImage
      match imageData with
      | JArray elements => elements
      | JString s =>
          match JSON_parse s with
          | Some (JArray parsed) => parsed
          | Some _ => [imageData]
          | None => [imageData]
          end
      | _ => []
      end)) by (rewrite Hkept; left; reflexivity).
    apply filter_In in Hin as [_ Hin]. exact Hin. }
  split.
  - destruct (endsWith url ".mp4") eqn:Hends; [| reflexivity].
    rewrite (video_extension_not_image url ".mp4" "4") in Hvalid;
      [discriminate | assumption | discriminate | reflexivity |].
    cbn. intuition discriminate.
  - destruct (endsWith url ".webm") eqn:Hends; [| reflexivity].
    rewrite (video_extension_not_image url ".webm" "m") in Hvalid;
      [discriminate | assumption | discriminate | reflexivity |].
    cbn. intuition discriminate.
Qed.

Lemma getFirstImageUrl_never_video_witness :
  getFirstImageUrl Samples.parse_gallery (JString Samples.gallery_json)
  = Some (JString "photo.PNG")
  ∧ endsWith "photo.PNG" ".mp4" = false
  ∧ endsWith "photo.PNG" ".webm" = false
  ∧ ProductPage.isVideo "photo.PNG" = Catalog.includes "photo.PNG" "video".
Proof.
  split; [reflexivity |].
  apply (getFirstImageUrl_never_video Samples.parse_gallery
           (JString Samples.gallery_json) "photo.PNG").
  reflexivity.
Defined.

(** The two pages part on a url that only contains "video": the gallery
    plays it as a video, the cart shows it as an image. *)
Example video_in_the_name :
  ProductPage.isVideo "video-cover.png" = true
  ∧ getFirstImageUrl Samples.parse_gallery (JString "video-cover.png")
    = Some (JString "video-cover.png").
Proof. split; reflexivity. Qed.

(** * Cart page: delivery charges *)

Section DeliveryCharges.

Import Delivery.

Context {num : Type} `{!JsNumber num}.

Lemma fold_applyChargeRow parseFloat rows (charges : DeliveryCharges num) :
  fold_left (applyChargeRow parseFloat) rows charges
  = {| charge_inside_dhaka :=
         last_charge parseFloat "inside_dhaka" rows
           (charge_inside_dhaka charges);
       charge_outside_dhaka :=
         last_charge parseFloat "outside_dhaka" rows
           (charge_outside_dhaka charges) |}.
Proof.
  revert charges. induction rows as [| row rows IH]; intros charges.
  - destruct charges; reflexivity.
  - cbn [fold_left]. rewrite IH. unfold last_charge, applyChargeRow.
    cbn [List.filter].
    destruct (String.eqb_spec (charge_location_type row) "inside_dhaka")
      as [Hin | Hin].
    + rewrite Hin. cbn [String.eqb Ascii.eqb Bool.eqb]. rewrite last_cons.
      cbn [charge_inside_dhaka charge_outside_dhaka].
      destruct (last (List.filter _ rows)); reflexivity.
    + destruct (String.eqb_spec (charge_location_type row) "outside_dhaka")
        as [Hout | Hout].
      * rewrite last_cons.
        cbn [charge_inside_dhaka charge_outside_dhaka].
        destruct (last (List.filter
          (λ row0, String.eqb (charge_location_type row0) "outside_dhaka")
          rows)); reflexivity.
      * reflexivity.
Qed.

End DeliveryCharges.

(** X28.  When the select on the delivery charges answers with rows and no
    error, each charge becomes the parsed charge of the last row of its
    location, and the built-in 60 or 120 when no row names the location,
    whatever the charges were before; rows of other locations count for
    nothing. *)
Theorem fetchDeliveryCharges_last_row {num : Type} `{!JsNumber num}
    (parseFloat : JsValue → num)
    (response : Response (list Delivery.ChargeRow))
    (deliveryCharges : DeliveryCharges num)
    (first : Delivery.ChargeRow) (rest : list Delivery.ChargeRow) :
  error response = None →
  data response = Some (first :: rest) →
  Delivery.fetchDeliveryCharges parseFloat response deliveryCharges
  = {| charge_inside_dhaka :=
         last_charge parseFloat "inside_dhaka" (first :: rest)
           (num_of_Z 60);
       charge_outside_dhaka :=
         last_charge parseFloat "outside_dhaka" (first :: rest)
           (num_of_Z 120) |}.
Proof.
  intros Herror Hdata. unfold Delivery.fetchDeliveryCharges.
  rewrite Herror, Hdata. apply fold_applyChargeRow.
Qed.

Lemma fetchDeliveryCharges_last_row_witness :
  error Scenarios.charges_answer = None
  ∧ data Scenarios.charges_answer
    = Some [Scenarios.charge_inside_70; Scenarios.charge_sylhet_90;
            Scenarios.charge_inside_80]
  ∧ Delivery.fetchDeliveryCharges Scenarios.parse_number
      Scenarios.charges_answer
      {| charge_inside_dhaka := 65%Q; charge_outside_dhaka := 130%Q |}
    = {| charge_inside_dhaka :=
           last_charge Scenarios.parse_number "inside_dhaka"
             [Scenarios.charge_inside_70; Scenarios.charge_sylhet_90;
              Scenarios.charge_inside_80]
             (num_of_Z 60);
         charge_outside_dhaka :=
           last_charge Scenarios.parse_number "outside_dhaka"
             [Scenarios.charge_inside_70; Scenarios.charge_sylhet_90;
              Scenarios.charge_inside_80]
             (num_of_Z 120) |}.
Proof.
  repeat (split; [reflexivity |]).
  apply (fetchDeliveryCharges_last_row Scenarios.parse_number
           Scenarios.charges_answer
           {| charge_inside_dhaka := 65%Q; charge_outside_dhaka := 130%Q |}
           Scenarios.charge_inside_70
           [Scenarios.charge_sylhet_90; Scenarios.charge_inside_80]);
    reflexivity.
Defined.

(** Two rows for inside Dhaka and one for another place: the later row
    wins, and outside Dhaka falls back on 120, not on the 130 of
    before. *)
Example fetchDeliveryCharges_later_row_wins :
  Delivery.fetchDeliveryCharges Scenarios.parse_number
    Scenarios.charges_answer
    {| charge_inside_dhaka := 65%Q; charge_outside_dhaka := 130%Q |}
  = {| charge_inside_dhaka := 80%Q; charge_outside_dhaka := 120%Q |}.
Proof. reflexivity. Qed.
